(** * bootstrap.py: the self-bootstrapping launcher

  A shallow embedding of [bootstrap.py] and the properties of its
  decision procedure.  The script talks to the interpreter, the
  filesystem and child processes; those are modelled by a state and
  exception monad over a [Process] record that also accumulates the
  trace of effects performed, with the behaviour of everything outside
  the script (imports, [venv.create], child processes, [execv]) left to
  an arbitrary [Host]. *)

From Stdlib Require Import ZArith String List.
From stdpp Require Import base decidable option list gmap strings.

Open Scope string_scope.
Open Scope Z_scope.
Open Scope list_scope.

(** ** Python runtime model *)

Module Py.

(** *** Exception classes and [isinstance] *)

Inductive builtin_class :=
  | cBaseException
  | cSystemExit
  | cKeyboardInterrupt
  | cException
  | cImportError
  | cModuleNotFoundError
  | cLookupError
  | cIndexError
  | cValueError
  | cOSError
  | cFileNotFoundError
  | cPermissionError
  | cSubprocessError
  | cCalledProcessError.

(** A class is a builtin or a class declared elsewhere (by a third-party
    package, say) with a single base. *)
Inductive pyclass :=
  | Builtin (b : builtin_class)
  | UserDefined (name : string) (base : pyclass).

#[global] Instance builtin_class_eq_dec : EqDecision builtin_class.
Proof. solve_decision. Defined.

#[global] Instance pyclass_eq_dec : EqDecision pyclass.
Proof. solve_decision. Defined.

(** Method resolution order of the builtin classes (CPython's hierarchy). *)
Definition builtin_mro (b : builtin_class) : list builtin_class :=
  match b with
  | cBaseException => [cBaseException]
  | cSystemExit => [cSystemExit; cBaseException]
  | cKeyboardInterrupt => [cKeyboardInterrupt; cBaseException]
  | cException => [cException; cBaseException]
  | cImportError => [cImportError; cException; cBaseException]
  | cModuleNotFoundError =>
      [cModuleNotFoundError; cImportError; cException; cBaseException]
  | cLookupError => [cLookupError; cException; cBaseException]
  | cIndexError => [cIndexError; cLookupError; cException; cBaseException]
  | cValueError => [cValueError; cException; cBaseException]
  | cOSError => [cOSError; cException; cBaseException]
  | cFileNotFoundError =>
      [cFileNotFoundError; cOSError; cException; cBaseException]
  | cPermissionError =>
      [cPermissionError; cOSError; cException; cBaseException]
  | cSubprocessError => [cSubprocessError; cException; cBaseException]
  | cCalledProcessError =>
      [cCalledProcessError; cSubprocessError; cException; cBaseException]
  end.

Fixpoint mro (c : pyclass) : list pyclass :=
  match c with
  | Builtin b => Builtin <$> builtin_mro b
  | UserDefined _ base => c :: mro base
  end.

Definition issubclass (c target : pyclass) : bool :=
  bool_decide (target ∈ mro c).

(** An exception instance.  [exn_code] is [SystemExit.code],
    [CalledProcessError.returncode], and unused for the other classes. *)
Record exn := MkExn { exn_class : pyclass; exn_code : Z }.

Definition isinstance (e : exn) (target : builtin_class) : bool :=
  issubclass (exn_class e) (Builtin target).

Definition SystemExit (code : Z) : exn := MkExn (Builtin cSystemExit) code.
Definition CalledProcessError (returncode : Z) : exn :=
  MkExn (Builtin cCalledProcessError) returncode.
Definition FileNotFoundError : exn := MkExn (Builtin cFileNotFoundError) 0.
Definition IndexError : exn := MkExn (Builtin cIndexError) 0.
Definition ValueError : exn := MkExn (Builtin cValueError) 0.
Definition ModuleNotFoundError : exn :=
  MkExn (Builtin cModuleNotFoundError) 0.

(** Why the operating system refused to start a program. *)
Inductive os_error := ENOENT | EACCES | EOTHER.

Definition OSError_of (err : os_error) : exn :=
  match err with
  | ENOENT => FileNotFoundError
  | EACCES => MkExn (Builtin cPermissionError) 0
  | EOTHER => MkExn (Builtin cOSError) 0
  end.

(** *** pathlib *)

Inductive flavour := Posix | Windows.

(** An absolute [pathlib.Path]: the anchor (["/"], ["C:\"]) and the
    names below it. *)
Record Path := MkPath {
  p_flavour : flavour;
  anchor : string;
  names : list string
}.

Definition sep (f : flavour) : string :=
  match f with Posix => "/" | Windows => "\" end.

(** [p / name] for a single relative name. *)
Definition joinpath (p : Path) (name : string) : Path :=
  MkPath (p_flavour p) (anchor p) (names p ++ [name]).

(** [str(p)]. *)
Definition str (p : Path) : string :=
  anchor p +:+ String.concat (sep (p_flavour p)) (names p).

(** *** Effects *)

Inductive stream := Stdout | Stderr.

(** Where [subprocess.run] sends a standard stream of the child. *)
Inductive redirect := Inherit | DEVNULL.

#[global] Instance redirect_eq_dec : EqDecision redirect.
Proof. solve_decision. Defined.

(** The arguments of one [subprocess.run] call. *)
Record run_call := MkRun {
  args : list string;
  env : option (gmap string string);
  stdout : redirect;
  stderr : redirect;
  check : bool
}.

(** How an attempt to start a child process ends. *)
Inductive spawn_result :=
  | LaunchFailed (err : os_error)
  | Exited (returncode : Z).

(** One interaction of the script with the outside, with the answer it got. *)
Inductive event :=
  | EvImport (name : string) (raised : option exn)
  | EvExists (path : string) (present : bool)
  | EvPrint (to : stream) (text : string)
  | EvVenvCreate (dir : string) (with_pip : bool) (raised : option exn)
  | EvRun (call : run_call) (result : spawn_result)
  | EvExecv (path : string) (argv : list string)
      (inherited : gmap string string) (failed : option os_error).

(** The running interpreter process and what it can observe. *)
Record Process := MkProcess {
  platform : string;              (* sys.platform *)
  environ : gmap string string;   (* os.environ *)
  argv : list string;             (* sys.argv *)
  script_dir : Path;              (* Path(__file__).parent.absolute() *)
  fs : gset string;               (* the paths that exist *)
  trace : list event              (* effects performed, oldest first *)
}.

Definition with_trace (t : list event) (s : Process) : Process :=
  MkProcess (platform s) (environ s) (argv s) (script_dir s) (fs s) t.

Definition with_fs (f : gset string) (s : Process) : Process :=
  MkProcess (platform s) (environ s) (argv s) (script_dir s) f (trace s).

Definition emit (ev : event) (s : Process) : Process :=
  with_trace (trace s ++ [ev]) s.

(** Everything the script does not control.  Each oracle sees the whole
    process, trace included, so its answer may change from call to call. *)
Record Host := MkHost {
  (* __import__(name): None when the module imports *)
  import_module : Process → string → option exn;
  (* venv.create(dir, with_pip): the exception raised, if any, and the
     filesystem it leaves behind *)
  venv_builder : Process → string → bool → option exn * gset string;
  (* a child started from an existing program: how it ends, and the
     filesystem it leaves behind *)
  spawn : Process → run_call → spawn_result * gset string;
  (* execv of an existing program: None when the image is replaced *)
  exec_image : Process → string → list string → option os_error
}.

(** How a computation ends. [Replaced]: [os.execv] succeeded, this program
    is gone and nothing after the call runs. *)
Inductive outcome (A : Type) :=
  | Normal (a : A)
  | Raised (e : exn)
  | Replaced.
Arguments Normal {A} a.
Arguments Raised {A} e.
Arguments Replaced {A}.

Definition M (A : Type) : Type := Process → outcome A * Process.

#[global] Instance M_ret : MRet M := λ A a s, (Normal a, s).

#[global] Instance M_bind : MBind M := λ A B k m s,
  match m s with
  | (Normal a, s') => k a s'
  | (Raised e, s') => (Raised e, s')
  | (Replaced, s') => (Replaced, s')
  end.

Definition raise {A} (e : exn) : M A := λ s, (Raised e, s).

Definition get {A} (f : Process → A) : M A := λ s, (Normal (f s), s).

Definition log (ev : event) : M unit := λ s, (Normal tt, emit ev s).

(** [try: body / except cls: handler] *)
Definition try_except {A} (body : M A) (cls : builtin_class)
    (handler : M A) : M A := λ s,
  match body s with
  | (Raised e, s') =>
      if isinstance e cls then handler s' else (Raised e, s')
  | r => r
  end.

(** [for x in xs: body x] *)
Fixpoint for_each {A} (xs : list A) (body : A → M unit) : M unit :=
  match xs with
  | [] => mret tt
  | x :: rest => body x ;; for_each rest body
  end.

Section Primitives.
Context (host : Host).

(** [__import__(name)] *)
Definition import_ (name : string) : M unit := λ s,
  let raised := import_module host s name in
  let s' := emit (EvImport name raised) s in
  match raised with
  | None => (Normal tt, s')
  | Some e => (Raised e, s')
  end.

(** [path.exists()] *)
Definition exists_ (p : Path) : M bool := λ s,
  let present := bool_decide (str p ∈ fs s) in
  (Normal present, emit (EvExists (str p) present) s).

(** [print(text, file=to, flush=True)] *)
Definition print (to : stream) (text : string) : M unit :=
  log (EvPrint to text).

(** [sys.exit(code)] *)
Definition sys_exit {A} (code : Z) : M A := raise (SystemExit code).

(** [venv.create(dir, with_pip=...)] *)
Definition venv_create (dir : Path) (with_pip : bool) : M unit := λ s,
  let '(raised, fs') := venv_builder host s (str dir) with_pip in
  let s' := with_fs fs' (emit (EvVenvCreate (str dir) with_pip raised) s) in
  match raised with
  | None => (Normal tt, s')
  | Some e => (Raised e, s')
  end.

(** Starting [program] as a child: a program that is not there cannot be
    started, an existing one is up to the host. *)
Definition launch (s : Process) (program : string) (call : run_call)
    : spawn_result * gset string :=
  if bool_decide (program ∈ fs s) then spawn host s call
  else (LaunchFailed ENOENT, fs s).

(** [subprocess.run(args, env=..., stdout=..., stderr=..., check=...)],
    with the program given by its full path: blocks until the child ends
    and returns its exit status. *)
Definition subprocess_run (call : run_call) : M Z := λ s,
  match args call with
  | [] => (Raised IndexError, s)
  | program :: _ =>
      let '(result, fs') := launch s program call in
      let s' := with_fs fs' (emit (EvRun call result) s) in
      match result with
      | LaunchFailed err => (Raised (OSError_of err), s')
      | Exited rc =>
          if check call && negb (rc =? 0)
          then (Raised (CalledProcessError rc), s')
          else (Normal rc, s')
      end
  end.

(** [os.execv(path, argv)]: the new image inherits [os.environ]. *)
Definition os_execv {A} (path : string) (argv : list string) : M A := λ s,
  match argv with
  | [] => (Raised ValueError, s)
  | _ :: _ =>
      let failed :=
        if bool_decide (path ∈ fs s) then exec_image host s path argv
        else Some ENOENT in
      let s' := emit (EvExecv path argv (environ s) failed) s in
      match failed with
      | Some err => (Raised (OSError_of err), s')
      | None => (Replaced, s')
      end
  end.

End Primitives.

End Py.


(** ** The script *)

Module Bootstrap.
Import Py.

Declare Scope path_scope.
Infix "/" := joinpath : path_scope.
#[local] Open Scope path_scope.

Definition VENV_DIR_NAME : string := ".venv".
Definition REQUIREMENTS_FILE : string := "requirements.txt".
Definition REQUIRED_IMPORTS : list string := ["rich"; "tomli"].
Definition REQUIRED_PACKAGES : list string := ["rich"; "tomli"].

Section Script.
Context (host : Host).

Definition get_venv_paths (root_dir : Path) : M (Path * Path * Path) :=
  let venv_dir := root_dir / VENV_DIR_NAME in
  sys_platform ← get platform;
  if bool_decide (sys_platform = "win32") then
    let python_executable := venv_dir / "Scripts" / "python.exe" in
    let pip_executable := venv_dir / "Scripts" / "pip.exe" in
    mret (venv_dir, python_executable, pip_executable)
  else
    let python_executable := venv_dir / "bin" / "python" in
    let pip_executable := venv_dir / "bin" / "pip" in
    mret (venv_dir, python_executable, pip_executable).

Definition check_script : string :=
  String.concat "; " ((λ pkg, "import " +:+ pkg) <$> REQUIRED_IMPORTS).

Definition check_venv_integrity (python_executable : Path) : M bool :=
  present ← exists_ python_executable;
  if negb present then mret false
  else
    try_except
      (subprocess_run host
         (MkRun [str python_executable; "-c"; check_script]
                None DEVNULL DEVNULL true) ;;
       mret true)
      cCalledProcessError
      (mret false).

Definition create_venv_if_missing (venv_dir : Path) : M unit :=
  present ← exists_ venv_dir;
  if negb present then
    print Stdout
      ("[Bootstrap] Creating virtual environment at: " +:+ str venv_dir +:+ "...") ;;
    venv_create host venv_dir true
  else mret tt.

Definition install_dependencies (root_dir pip_executable : Path) : M unit :=
  let req_path := root_dir / REQUIREMENTS_FILE in
  let base_cmd :=
    [str pip_executable; "install"; "--disable-pip-version-check";
     "-i"; "https://pypi.tuna.tsinghua.edu.cn/simple"] in
  print Stdout "[Bootstrap] Installing dependencies..." ;;
  try_except
    (present ← exists_ req_path;
     if (present : bool) then
       subprocess_run host
         (MkRun (base_cmd ++ ["-r"; str req_path]) None Inherit Inherit true) ;;
       mret tt
     else
       subprocess_run host
         (MkRun (base_cmd ++ REQUIRED_PACKAGES) None Inherit Inherit true) ;;
       mret tt)
    cCalledProcessError
    (print Stderr "[Bootstrap] Error: Failed to install dependencies." ;;
     sys_exit 1).

Definition restart_in_venv (python_executable : Path) : M unit :=
  env ← get environ;
  let env : gmap string string := <["GRADER_BOOTSTRAPPED" := "1"]> env in
  sys_argv ← get argv;
  let args := [str python_executable] ++ sys_argv in
  sys_platform ← get platform;
  if bool_decide (sys_platform = "win32") then
    subprocess_run host (MkRun args (Some env) Inherit Inherit true) ;;
    sys_exit 0
  else
    os_execv host (str python_executable) args.

Definition initialize : M unit :=
  usable ← try_except
              (for_each REQUIRED_IMPORTS (import_ host) ;; mret true)
              cImportError
              (mret false);
  if (usable : bool) then mret tt
  else
    root_dir ← get script_dir;
    '(venv_dir, venv_python, venv_pip) ← get_venv_paths root_dir;
    marker ← get (λ s, environ s !! "GRADER_BOOTSTRAPPED");
    let is_in_venv := bool_decide (marker = Some "1") in
    if is_in_venv then
      print Stdout "[Bootstrap] In venv but dependencies missing. Repairing..." ;;
      install_dependencies root_dir venv_pip
    else
      create_venv_if_missing venv_dir ;;
      intact ← check_venv_integrity venv_python;
      (if negb intact then install_dependencies root_dir venv_pip
       else mret tt) ;;
      restart_in_venv venv_python.

End Script.

End Bootstrap.


(** ** Observations on a run *)

Module Obs.
Import Py Bootstrap.
#[local] Open Scope path_scope.

(** The events a computation added, from the process before and after it. *)
Definition emitted (s s' : Process) : list event :=
  drop (length (trace s)) (trace s').

Definition count (P : event → bool) (t : list event) : nat :=
  length (List.filter P t).

Definition is_spawn (ev : event) : bool :=
  match ev with EvRun _ _ => true | _ => false end.

Definition is_execv (ev : event) : bool :=
  match ev with EvExecv _ _ _ _ => true | _ => false end.

Definition is_venv_create (ev : event) : bool :=
  match ev with EvVenvCreate _ _ _ => true | _ => false end.

(** A launch: a child process or a replacement of the process image. *)
Definition is_launch (ev : event) : bool := is_spawn ev || is_execv ev.

Definition is_import (ev : event) : bool :=
  match ev with EvImport _ _ => true | _ => false end.

Definition is_print_to (to : stream) (ev : event) : bool :=
  match ev, to with
  | EvPrint Stdout _, Stdout | EvPrint Stderr _, Stderr => true
  | _, _ => false
  end.

(** A child started from [program]. *)
Definition runs (program : string) (ev : event) : bool :=
  match ev with
  | EvRun call _ => bool_decide (head (args call) = Some program)
  | _ => false
  end.

(** The hand-off of [sys.argv] to [python]: an [execv] of it, or a child
    of it on the inherited standard streams. *)
Definition is_handoff (python : string) (sys_argv : list string)
    (ev : event) : bool :=
  match ev with
  | EvExecv path argv _ _ =>
      bool_decide (path = python ∧ argv = python :: sys_argv)
  | EvRun call _ =>
      bool_decide (args call = python :: sys_argv
                   ∧ stdout call = Inherit ∧ stderr call = Inherit)
  | _ => false
  end.

(** The environment the launched program starts with. *)
Definition launch_env (s : Process) (ev : event)
    : option (gmap string string) :=
  match ev with
  | EvRun call _ => Some (default (environ s) (env call))
  | EvExecv _ _ inherited _ => Some inherited
  | _ => None
  end.

(** The argument vector the launched program starts with. *)
Definition launch_argv (ev : event) : option (list string) :=
  match ev with
  | EvRun call _ => Some (args call)
  | EvExecv _ argv _ _ => Some argv
  | _ => None
  end.

(** [s'] is [s] later on: more events, maybe another filesystem, and the
    same platform, environment, arguments and script. *)
Definition extends (s s' : Process) : Prop :=
  ∃ k files, s' = with_fs files (with_trace (trace s ++ k) s).

(** A computation that only ever moves the process forward. *)
Definition grows {A} (m : M A) : Prop := ∀ s, extends s (snd (m s)).

(** The status the interpreter ends with when the script's computation ends
    in an exception nobody catches: the code of a [SystemExit], 1 after the
    traceback of any other exception. *)
Definition exit_status {A} (r : outcome A) : option Z :=
  match r with
  | Raised e => Some (if isinstance e cSystemExit then exn_code e else 1)
  | _ => None
  end.

(** The layout [get_venv_paths] computes. *)
Definition venv_dir (s : Process) : Path := script_dir s / VENV_DIR_NAME.

Definition venv_python (s : Process) : Path :=
  if bool_decide (platform s = "win32")
  then venv_dir s / "Scripts" / "python.exe"
  else venv_dir s / "bin" / "python".

Definition venv_pip (s : Process) : Path :=
  if bool_decide (platform s = "win32")
  then venv_dir s / "Scripts" / "pip.exe"
  else venv_dir s / "bin" / "pip".

(** The marker is read as set only when it holds the sentinel. *)
Definition marker_set (s : Process) : Prop :=
  environ s !! "GRADER_BOOTSTRAPPED" = Some "1".

#[global] Instance marker_set_dec s : Decision (marker_set s).
Proof. unfold marker_set. apply _. Defined.

Section Parts.
Context (host : Host).

(** The [try] block at the head of [initialize]. *)
Definition imports : M unit := for_each REQUIRED_IMPORTS (import_ host).

Definition fast_path : M bool :=
  try_except (imports ;; mret true) cImportError (mret false).

(** The two ways [initialize] goes on after a failed fast path, named as
    the states of the orchestrator. *)
Definition repair_in_place : M unit := λ s,
  (print Stdout "[Bootstrap] In venv but dependencies missing. Repairing..." ;;
   install_dependencies host (script_dir s) (venv_pip s)) s.

Definition needs_handoff : M unit := λ s,
  (create_venv_if_missing host (venv_dir s) ;;
   intact ← check_venv_integrity host (venv_python s);
   (if negb intact
    then install_dependencies host (script_dir s) (venv_pip s)
    else mret tt) ;;
   restart_in_venv host (venv_python s)) s.

(** What [install_dependencies] asks the package manager to do. *)
Definition install_call (root_dir pip_executable : Path) (manifest : bool)
    : run_call :=
  MkRun (str pip_executable
         :: ["install"; "--disable-pip-version-check";
             "-i"; "https://pypi.tuna.tsinghua.edu.cn/simple"]
         ++ (if manifest then ["-r"; str (root_dir / REQUIREMENTS_FILE)]
             else REQUIRED_PACKAGES))
        None Inherit Inherit true.

(** What [check_venv_integrity] asks the interpreter to do. *)
Definition integrity_call (python_executable : Path) : run_call :=
  MkRun [str python_executable; "-c"; "import rich; import tomli"]
        None DEVNULL DEVNULL true.

(** What [restart_in_venv] starts on the spawn-and-wait platform. *)
Definition handoff_call (s : Process) (python_executable : Path) : run_call :=
  MkRun (str python_executable :: argv s)
        (Some (<["GRADER_BOOTSTRAPPED" := "1"]> (environ s)))
        Inherit Inherit true.

End Parts.

(** The marker is read as set only when it holds the sentinel. *)

(** Events that act on the world outside the process. *)
Definition is_effect (ev : event) : bool := is_launch ev || is_venv_create ev.

(** A predicate on events that only effects can satisfy. *)
Definition effectful (P : event → bool) : Prop :=
  ∀ ev, is_effect ev = false → P ev = false.

(** A computation that moves the process forward and adds at most [n]
    events satisfying [P]. *)
Definition bounded {A} (P : event → bool) (n : nat) (m : M A) : Prop :=
  ∀ s, extends s (snd (m s)) ∧ (count P (emitted s (snd (m s))) ≤ n)%nat.

(** A computation that never ends by returning a value. *)
Definition never_returns {A} (m : M A) : Prop :=
  ∀ s a, fst (m s) ≠ Normal a.

(** *** Hosts and processes to run the script on *)

Definition project : Path := MkPath Posix "/" ["home"; "ta"; "lab"].
Definition project_win : Path := MkPath Windows "C:\" ["lab"].

Definition provisioned : gset string :=
  {[ "/home/ta/lab/.venv"; "/home/ta/lab/.venv/bin/python";
     "/home/ta/lab/.venv/bin/pip" ]}.

Definition provisioned_win : gset string :=
  {[ "C:\lab\.venv"; "C:\lab\.venv\Scripts\python.exe";
     "C:\lab\.venv\Scripts\pip.exe" ]}.

(** A host where no required module imports, every child exits with
    [status] and leaves the filesystem alone, [venv.create] succeeds and
    [execv] goes through. *)
Definition plain_host (status : Z) : Host :=
  MkHost (λ _ _, Some ModuleNotFoundError)
         (λ s dir _, (None, fs s ∪ provisioned))
         (λ s _, (Exited status, fs s))
         (λ _ _ _, None).

(** The same host with every required module importable. *)
Definition ready_host : Host :=
  MkHost (λ _ _, None)
         (λ s dir _, (None, fs s ∪ provisioned))
         (λ s _, (Exited 0, fs s))
         (λ _ _ _, None).

(** A host whose [rich] fails to load with something else than an
    [ImportError]. *)
Definition broken_host : Host :=
  MkHost (λ _ _, Some (MkExn (UserDefined "ConfigError" (Builtin cException)) 0))
         (λ s dir _, (None, fs s ∪ provisioned))
         (λ s _, (Exited 0, fs s))
         (λ _ _ _, None).

Definition posix_process (vars : gmap string string) (files : gset string)
    : Process :=
  MkProcess "linux" vars ["grader.py"; "--verbose"] project files [].

Definition win_process (vars : gmap string string) (files : gset string)
    : Process :=
  MkProcess "win32" vars ["grader.py"; "--verbose"] project_win files [].

Definition relaunched : gmap string string :=
  {[ "GRADER_BOOTSTRAPPED" := "1"; "HOME" := "/home/ta" ]}.

Definition fresh : gmap string string := {[ "HOME" := "/home/ta" ]}.


(** A host whose environment lacks the packages: the interpreter's [-c]
    check exits with status 1, every other child with status 0. *)
Definition stale_host : Host :=
  MkHost (λ _ _, Some ModuleNotFoundError)
         (λ s dir _, (None, fs s ∪ provisioned))
         (λ s call,
            (Exited (if bool_decide (args call !! 1%nat = Some "-c")
                     then 1 else 0), fs s))
         (λ _ _ _, None).

Definition half_marked : gmap string string :=
  {[ "GRADER_BOOTSTRAPPED" := "true"; "HOME" := "/home/ta" ]}.

End Obs.

Import Py Bootstrap Obs.
#[local] Open Scope path_scope.

(** ** Properties *)



(** Reduce the record operations on a process built with [MkProcess]. *)
Ltac step_process :=
  cbv [emit with_fs with_trace trace fs platform environ argv script_dir].

(** Close [emitted s s' = k] once both processes are explicit. *)
Ltac solve_emitted :=
  unfold emitted; step_process; rewrite <- ?app_assoc; apply drop_app_length.

(** Compute every [emitted s s'] in the goal once both processes are
    explicit. *)
Ltac simpl_emitted :=
  unfold emitted; step_process;
  rewrite <- ?app_assoc, ?drop_app_length; cbn [app].

Section Properties.
Context (host : Host).

(** *** Stepping through the monad *)

Lemma emitted_app s s' k : trace s' = (trace s ++ k) → emitted s s' = k.
Proof. unfold emitted. intros ->. apply drop_app_length. Qed.

Lemma OSError_not_CalledProcessError err :
  isinstance (OSError_of err) cCalledProcessError = false.
Proof. by destruct err. Qed.

Lemma get_venv_paths_layout s :
  get_venv_paths (script_dir s) s
  = (Normal (venv_dir s, venv_python s, venv_pip s), s).
Proof.
  unfold get_venv_paths, venv_python, venv_pip, venv_dir, mbind, M_bind, get.
  by case_bool_decide.
Qed.

(** The fast path only imports: it leaves everything but the trace alone. *)
Lemma imports_frame s :
  ∃ k, snd (imports host s) = with_trace (trace s ++ k) s
       ∧ forallb is_import k = true.
Proof.
  destruct s as [plat vars sys_argv root files tr].
  cbv [imports for_each REQUIRED_IMPORTS mbind M_bind mret M_ret import_
       emit with_trace trace platform environ argv script_dir fs].
  repeat case_match; simplify_eq/=; rewrite <- ?app_assoc;
    eexists; (split; [reflexivity|]); reflexivity.
Qed.

Lemma fast_path_cases s :
  fast_path host s =
  match imports host s with
  | (Normal _, s0) => (Normal true, s0)
  | (Raised e, s0) =>
      if isinstance e cImportError then (Normal false, s0) else (Raised e, s0)
  | (Replaced, s0) => (Replaced, s0)
  end.
Proof.
  unfold fast_path, try_except, mbind, M_bind, mret, M_ret.
  by destruct (imports host s) as [[[]|e|] s0].
Qed.

Lemma initialize_cases s :
  initialize host s =
  match fast_path host s with
  | (Normal true, s0) => (Normal tt, s0)
  | (Normal false, s0) =>
      if decide (marker_set s0) then repair_in_place host s0
      else needs_handoff host s0
  | (Raised e, s0) => (Raised e, s0)
  | (Replaced, s0) => (Replaced, s0)
  end.
Proof.
  unfold initialize. fold (imports host). fold (fast_path host).
  unfold mbind at 1. unfold M_bind at 1.
  destruct (fast_path host s) as [[[]|e|] s0]; try reflexivity.
  unfold mbind at 1. unfold M_bind at 1. unfold get at 1.
  unfold mbind at 1. unfold M_bind at 1. rewrite get_venv_paths_layout.
  unfold mbind at 1. unfold M_bind at 1. unfold get at 1.
  unfold repair_in_place, needs_handoff, marker_set.
  destruct (decide _) as [H|H].
  - by rewrite (bool_decide_eq_true_2 _ H).
  - by rewrite (bool_decide_eq_false_2 _ H).
Qed.

Lemma install_dependencies_unfold root pip s :
  let req := str (root / REQUIREMENTS_FILE) in
  let manifest := bool_decide (req ∈ fs s) in
  let call := install_call root pip manifest in
  let s1 := emit (EvExists req manifest)
              (emit (EvPrint Stdout "[Bootstrap] Installing dependencies...") s) in
  install_dependencies host root pip s =
  let '(result, fs') := launch host s1 (str pip) call in
  let s2 := with_fs fs' (emit (EvRun call result) s1) in
  match result with
  | Exited rc =>
      if rc =? 0 then (Normal tt, s2)
      else (Raised (SystemExit 1),
            emit (EvPrint Stderr "[Bootstrap] Error: Failed to install dependencies.") s2)
  | LaunchFailed err => (Raised (OSError_of err), s2)
  end.
Proof.
  destruct s as [plat vars sys_argv dir files tr].
  cbv [install_dependencies install_call mbind M_bind mret M_ret try_except
       print log exists_ subprocess_run sys_exit raise args check fs].
  cbn [emit with_trace fs trace platform environ argv script_dir app].
  case_bool_decide; cbn [app];
    destruct (launch _ _ _ _) as [[err|rc] fs'];
    rewrite ?OSError_not_CalledProcessError; try reflexivity;
    destruct (rc =? 0); reflexivity.
Qed.


(** *** Frame: the script only adds events and changes files *)

Lemma extends_refl s : extends s s.
Proof. exists [], (fs s). destruct s. step_process. by rewrite app_nil_r. Qed.

Lemma extends_trans s1 s2 s3 : extends s1 s2 → extends s2 s3 → extends s1 s3.
Proof.
  intros (k1 & f1 & ->) (k2 & f2 & ->). exists (k1 ++ k2), f2.
  destruct s1. step_process. by rewrite app_assoc.
Qed.

Lemma extends_emit ev s : extends s (emit ev s).
Proof. exists [ev], (fs s). by destruct s. Qed.

Lemma extends_with_fs files s : extends s (with_fs files s).
Proof. exists [], files. destruct s. step_process. by rewrite app_nil_r. Qed.

Lemma extends_venv_paths s s' :
  extends s s' →
  script_dir s' = script_dir s ∧ venv_dir s' = venv_dir s
  ∧ venv_python s' = venv_python s ∧ venv_pip s' = venv_pip s
  ∧ argv s' = argv s ∧ environ s' = environ s ∧ platform s' = platform s.
Proof. intros (k & f & ->). by destruct s. Qed.

Lemma grows_ret {A} (a : A) : grows (mret a).
Proof. intros s. apply extends_refl. Qed.

Lemma grows_bind {A B} (m : M A) (k : A → M B) :
  grows m → (∀ a, grows (k a)) → grows (m ≫= k).
Proof.
  intros Hm Hk s. specialize (Hm s). unfold mbind, M_bind.
  destruct (m s) as [[a|e|] s1]; cbn in *; [|done..].
  eapply extends_trans; [done | apply Hk].
Qed.

(** A bind ends no earlier than its first half. *)
Lemma bind_extends {A B} (m : M A) (k : A → M B) s :
  (∀ a, grows (k a)) → extends (snd (m s)) (snd ((m ≫= k) s)).
Proof.
  intros Hk. unfold mbind, M_bind.
  destruct (m s) as [[a|e|] s1]; cbn; [apply Hk | apply extends_refl..].
Qed.

Lemma grows_try_except {A} (body handler : M A) cls :
  grows body → grows handler → grows (try_except body cls handler).
Proof.
  intros Hb Hh s. specialize (Hb s). unfold try_except.
  destruct (body s) as [[a|e|] s1]; cbn in *; [done| |done].
  destruct (isinstance e cls); [|done].
  eapply extends_trans; [done | apply Hh].
Qed.

Lemma grows_get {A} (f : Process → A) : grows (get f).
Proof. intros s. apply extends_refl. Qed.

Lemma grows_raise {A} e : grows (raise (A:=A) e).
Proof. intros s. apply extends_refl. Qed.

Lemma grows_print to text : grows (print to text).
Proof. intros s. apply extends_emit. Qed.

Lemma grows_exists p : grows (exists_ p).
Proof. intros s. apply extends_emit. Qed.

Lemma grows_import name : grows (import_ host name).
Proof.
  intros s. unfold import_.
  destruct (import_module host s name); apply extends_emit.
Qed.

Lemma grows_venv_create dir with_pip : grows (venv_create host dir with_pip).
Proof.
  intros s. unfold venv_create.
  destruct (venv_builder host s (str dir) with_pip) as [[e|] files];
    (eapply extends_trans; [apply extends_emit | apply extends_with_fs]).
Qed.

Lemma grows_subprocess_run call : grows (subprocess_run host call).
Proof.
  intros s. unfold subprocess_run.
  destruct (args call) as [|program rest]; [apply extends_refl|].
  destruct (launch host s program call) as [[err|rc] files];
    [|destruct (check call && negb (rc =? 0))];
    (eapply extends_trans; [apply extends_emit | apply extends_with_fs]).
Qed.

Lemma grows_os_execv {A} path args : grows (os_execv (A:=A) host path args).
Proof.
  intros s. unfold os_execv. destruct args as [|a rest]; [apply extends_refl|].
  case_match; apply extends_emit.
Qed.

Create HintDb grows.
#[local] Hint Resolve grows_ret grows_bind grows_try_except grows_get
  grows_raise grows_print grows_exists grows_import grows_venv_create
  grows_subprocess_run grows_os_execv : grows.

Lemma grows_sys_exit {A} code : grows (sys_exit (A:=A) code).
Proof. apply grows_raise. Qed.

Ltac solve_grows :=
  repeat first
    [ progress intros
    | solve [auto using grows_sys_exit with grows]
    | apply grows_bind | apply grows_try_except
    | match goal with |- grows (if ?b then _ else _) => destruct b end
    | match goal with |- grows (let '(_, _) := ?p in _) => destruct p end ].


Lemma grows_check_venv_integrity python :
  grows (check_venv_integrity host python).
Proof. unfold check_venv_integrity. solve_grows. Qed.

Lemma grows_install_dependencies root pip :
  grows (install_dependencies host root pip).
Proof. unfold install_dependencies. solve_grows. Qed.

Lemma grows_restart_in_venv python : grows (restart_in_venv host python).
Proof. unfold restart_in_venv. solve_grows. Qed.

(** *** Counting events *)

Lemma count_app P k1 k2 : count P (k1 ++ k2) = (count P k1 + count P k2)%nat.
Proof. unfold count. by rewrite List.filter_app, length_app. Qed.

Lemma count_imports P k :
  forallb is_import k = true →
  (∀ name raised, P (EvImport name raised) = false) →
  count P k = 0%nat.
Proof.
  intros Hk HP. induction k as [|ev k IH]; [done|].
  cbn in Hk. apply andb_true_iff in Hk as [Hev Hk].
  destruct ev; try discriminate. unfold count in *. cbn.
  rewrite HP. by apply IH.
Qed.

Lemma count_quiet P k :
  (∀ ev, is_launch ev = false → P ev = false) →
  count is_launch k = 0%nat → count P k = 0%nat.
Proof.
  intros HP. unfold count. induction k as [|ev k IH]; [done|]. cbn.
  destruct (is_launch ev) eqn:Hev; [done|]. rewrite (HP ev Hev). apply IH.
Qed.

Lemma runs_quiet program ev : is_launch ev = false → runs program ev = false.
Proof. by destruct ev. Qed.

Lemma is_handoff_quiet python sys_argv ev :
  is_launch ev = false → is_handoff python sys_argv ev = false.
Proof. by destruct ev. Qed.

(** *** Paths *)

Lemma string_app_assoc (a b c : string) : (a +:+ b) +:+ c = a +:+ (b +:+ c).
Proof.
  induction a as [|x a IH]; [done|].
  change (String x ((a +:+ b) +:+ c) = String x (a +:+ (b +:+ c))).
  by rewrite IH.
Qed.

Lemma concat_snoc (sp : string) (l : list string) :
  ∃ stem, ∀ a, String.concat sp (l ++ [a]) = stem +:+ a.
Proof.
  induction l as [|x l [stem IH]].
  - by exists "".
  - exists (x +:+ sp +:+ stem). intros a.
    change ((x :: l) ++ [a]) with (x :: (l ++ [a])).
    destruct (l ++ [a]) as [|y rest] eqn:Hl; [by destruct l|].
    change (String.concat sp (x :: y :: rest))
      with (x +:+ sp +:+ String.concat sp (y :: rest)).
    rewrite <- Hl, IH.
    by rewrite !string_app_assoc.
Qed.

Lemma str_joinpath_inj (p : Path) (a b : string) :
  str (p / a) = str (p / b) → a = b.
Proof.
  unfold str, joinpath. cbn [anchor names p_flavour].
  destruct (concat_snoc (sep (p_flavour p)) (names p)) as [stem Hstem].
  rewrite !Hstem, <- !string_app_assoc. apply String.app_inj.
Qed.

Lemma venv_python_not_pip s : str (venv_python s) ≠ str (venv_pip s).
Proof.
  unfold venv_python, venv_pip.
  case_bool_decide; intros Heq%str_joinpath_inj; discriminate.
Qed.

(** *** The leaf operations *)

(** C7: on a directory that already exists [create_venv_if_missing] is a
    no-op.  It returns normally, the only thing it does is ask once whether
    the directory itself exists (nothing is created, nothing below the
    directory is looked at), the filesystem is the same afterwards, and a
    second call behaves like the first. *)
Theorem create_venv_if_missing_existing s dir :
  str dir ∈ fs s →
  let once := create_venv_if_missing host dir in
  once s = (Normal tt, emit (EvExists (str dir) true) s)
  ∧ emitted s (snd (once s)) = [EvExists (str dir) true]
  ∧ fs (snd (once s)) = fs s
  ∧ (once ;; once) s
    = (Normal tt, emit (EvExists (str dir) true)
                    (emit (EvExists (str dir) true) s)).
Proof.
  intros Hin once.
  assert (Hstep : ∀ s0, fs s0 = fs s →
            once s0 = (Normal tt, emit (EvExists (str dir) true) s0)).
  { intros s0 Hfs. unfold once, create_venv_if_missing, mbind, M_bind, exists_.
    rewrite Hfs, (bool_decide_eq_true_2 _ Hin). reflexivity. }
  rewrite (Hstep s eq_refl). repeat split.
  - by apply emitted_app.
  - unfold mbind, M_bind. rewrite (Hstep s eq_refl). by apply Hstep.
Qed.

(** C4: [check_venv_integrity] answers [False] without starting anything
    when the interpreter path does not exist.  When it exists, the
    interpreter is started exactly once, with [-c] and the imports of all
    required modules joined into one command, both output streams sent to
    [DEVNULL], and the answer is [True] exactly when the child exits with
    status 0.  (A child that cannot be started raises its [OSError].) *)
Theorem check_venv_integrity_spec s python :
  let '(r, s') := check_venv_integrity host python s in
  let call :=
    MkRun [str python; "-c"; "import rich; import tomli"]
          None DEVNULL DEVNULL true in
  if bool_decide (str python ∈ fs s) then
    ∃ result,
      emitted s s' = [EvExists (str python) true; EvRun call result]
      ∧ match result with
        | Exited rc => r = Normal (bool_decide (rc = 0))
        | LaunchFailed err => r = Raised (OSError_of err)
        end
  else
    r = Normal false
    ∧ emitted s s' = [EvExists (str python) false]
    ∧ count is_spawn (emitted s s') = 0%nat.
Proof.
  destruct s as [plat vars sys_argv dir files tr].
  cbv [check_venv_integrity mbind M_bind mret M_ret try_except exists_
       subprocess_run launch args check fs].
  cbn [emit with_trace fs trace platform environ argv script_dir].
  change check_script with "import rich; import tomli".
  case_bool_decide as Hin; cbn [negb].
  - rewrite (bool_decide_eq_true_2 _ Hin).
    destruct (spawn _ _ _) as [[err|rc] fs'].
    + rewrite OSError_not_CalledProcessError.
      eexists. split; [solve_emitted | reflexivity].
    + destruct (Z.eqb_spec rc 0) as [->|Hrc]; cbn [andb negb];
        eexists; (split; [solve_emitted|]); [reflexivity|].
      cbn beta iota.
      by rewrite (bool_decide_eq_false_2 _ Hrc).
  - repeat split; [solve_emitted|].
    unfold count. by replace (emitted _ _) with [EvExists (str python) false]
      by (symmetry; solve_emitted).
Qed.

(** C5: [install_dependencies] runs the package manager exactly once, with
    the fixed flags [--disable-pip-version-check] and [-i] the mirror,
    installing from the manifest ([-r requirements.txt]) when that file
    exists under the root and the hardcoded packages otherwise.  When the
    package manager exits non-zero, the diagnostic goes to the error stream
    and the process exits with status 1; nothing is tried a second time. *)
Theorem install_dependencies_spec s root pip :
  let '(r, s') := install_dependencies host root pip s in
  let req := str (root / REQUIREMENTS_FILE) in
  let manifest := bool_decide (req ∈ fs s) in
  let cmd :=
    ([str pip; "install"; "--disable-pip-version-check";
      "-i"; "https://pypi.tuna.tsinghua.edu.cn/simple"]
     ++ (if manifest then ["-r"; req] else ["rich"; "tomli"])) in
  ∃ result,
    let attempt :=
      [EvPrint Stdout "[Bootstrap] Installing dependencies...";
       EvExists req manifest;
       EvRun (MkRun cmd None Inherit Inherit true) result] in
    count is_spawn (emitted s s') = 1%nat
    ∧ match result with
      | Exited rc =>
          if rc =? 0 then r = Normal tt ∧ emitted s s' = attempt
          else
            r = Raised (SystemExit 1)
            ∧ exit_status r = Some 1
            ∧ emitted s s'
              = attempt ++ [EvPrint Stderr "[Bootstrap] Error: Failed to install dependencies."]
      | LaunchFailed err =>
          r = Raised (OSError_of err) ∧ emitted s s' = attempt
      end.
Proof.
  rewrite install_dependencies_unfold.
  destruct s as [plat vars sys_argv dir files tr]. step_process.
  destruct (launch _ _ _ _) as [[err|rc] fs']; [|destruct (rc =? 0) eqn:Hrc];
    [exists (LaunchFailed err) | exists (Exited rc) ..];
    cbn zeta; unfold install_call, count; simpl_emitted; rewrite ?Hrc;
    repeat split; reflexivity.
Qed.

Lemma restart_in_venv_unfold python s :
  restart_in_venv host python s =
  if decide (platform s = "win32") then
    let call := handoff_call s python in
    let '(result, fs') := launch host s (str python) call in
    let s' := with_fs fs' (emit (EvRun call result) s) in
    match result with
    | Exited rc =>
        if rc =? 0 then (Raised (SystemExit 0), s')
        else (Raised (CalledProcessError rc), s')
    | LaunchFailed err => (Raised (OSError_of err), s')
    end
  else
    let failed :=
      if bool_decide (str python ∈ fs s)
      then exec_image host s (str python) (str python :: argv s)
      else Some ENOENT in
    let s' :=
      emit (EvExecv (str python) (str python :: argv s) (environ s) failed) s in
    match failed with
    | Some err => (Raised (OSError_of err), s')
    | None => (Replaced, s')
    end.
Proof.
  destruct s as [plat vars sys_argv dir files tr].
  cbv [restart_in_venv handoff_call mbind M_bind mret M_ret get
       subprocess_run os_execv sys_exit raise args check].
  step_process. cbn [app].
  destruct (decide _) as [Hwin|Hwin].
  - rewrite (bool_decide_eq_true_2 _ Hwin).
    destruct (launch _ _ _ _) as [[err|rc] fs']; [reflexivity|].
    by destruct (rc =? 0).
  - rewrite (bool_decide_eq_false_2 _ Hwin). reflexivity.
Qed.

(** C1, amended: on win32 [restart_in_venv] starts the child once and waits
    for it.  When the child exits with status 0 the parent exits with
    status 0.  When the child exits with another status, [check=True] makes
    [subprocess.run] raise [CalledProcessError], [sys.exit(0)] is not
    reached, and the parent ends with the uncaught exception (status 1). *)
Theorem restart_in_venv_win32 s python :
  platform s = "win32" →
  let '(r, s') := restart_in_venv host python s in
  let call :=
    MkRun (str python :: argv s)
          (Some (<["GRADER_BOOTSTRAPPED" := "1"]> (environ s)))
          Inherit Inherit true in
  ∃ result,
    emitted s s' = [EvRun call result]
    ∧ match result with
      | Exited rc =>
          if rc =? 0 then r = Raised (SystemExit 0) ∧ exit_status r = Some 0
          else r = Raised (CalledProcessError rc) ∧ exit_status r = Some 1
      | LaunchFailed err => r = Raised (OSError_of err)
      end.
Proof.
  intros Hwin. rewrite restart_in_venv_unfold.
  destruct (decide _) as [_|[]]; [|done]. cbn zeta.
  destruct s as [plat vars sys_argv dir files tr]. step_process.
  destruct (launch _ _ _ _) as [[err|rc] fs']; [|destruct (rc =? 0) eqn:Hrc];
    [exists (LaunchFailed err) | exists (Exited rc) ..];
    unfold handoff_call; simpl_emitted; rewrite ?Hrc; repeat split; reflexivity.
Qed.


(** *** The orchestrator *)

Lemma imports_unfold s :
  imports host s =
  let r1 := import_module host s "rich" in
  let s1 := emit (EvImport "rich" r1) s in
  match r1 with
  | Some e => (Raised e, s1)
  | None =>
      let r2 := import_module host s1 "tomli" in
      let s2 := emit (EvImport "tomli" r2) s1 in
      match r2 with
      | Some e => (Raised e, s2)
      | None => (Normal tt, s2)
      end
  end.
Proof.
  cbv [imports for_each REQUIRED_IMPORTS mbind M_bind mret M_ret import_].
  destruct (import_module host s "rich"); [reflexivity|].
  by destruct (import_module host _ "tomli").
Qed.

Lemma fast_path_frame s :
  ∃ k, snd (fast_path host s) = with_trace (trace s ++ k) s
       ∧ forallb is_import k = true.
Proof.
  destruct (imports_frame s) as (k & Hk & Himp). exists k.
  rewrite fast_path_cases.
  destruct (imports host s) as [[[]|e|] s0]; [done| |done].
  by destruct (isinstance e cImportError).
Qed.

Lemma emitted_step s s0 s1 ev :
  extends s s0 → extends (emit ev s0) s1 →
  ∃ rest, emitted s s1 = emitted s s0 ++ ev :: rest.
Proof.
  intros (k0 & f0 & ->) (k1 & f1 & ->). exists k1.
  destruct s. simpl_emitted. reflexivity.
Qed.

Lemma repair_in_place_first s :
  ∃ ev, ev = EvPrint Stdout "[Bootstrap] In venv but dependencies missing. Repairing..."
        ∧ extends (emit ev s) (snd (repair_in_place host s)).
Proof.
  eexists. split; [reflexivity|].
  unfold repair_in_place, mbind, M_bind, print, log.
  apply grows_install_dependencies.
Qed.

Lemma needs_handoff_first s :
  ∃ present,
    extends (emit (EvExists (str (venv_dir s)) present) s)
            (snd (needs_handoff host s)).
Proof.
  exists (bool_decide (str (venv_dir s) ∈ fs s)).
  unfold needs_handoff.
  eapply extends_trans; [|apply bind_extends].
  - unfold create_venv_if_missing.
    apply (bind_extends (exists_ (venv_dir s))). solve_grows.
  - intros _. pose proof grows_check_venv_integrity.
    pose proof grows_install_dependencies. pose proof grows_restart_in_venv.
    solve_grows.
Qed.

(** C8: when every required module imports, [initialize] returns normally,
    the filesystem is unchanged, and the two imports are all it did: no
    child is started, no image replaced, no environment created. *)
Theorem initialize_fast_path s :
  fst (imports host s) = Normal tt →
  let '(r, s') := initialize host s in
  r = Normal tt
  ∧ fs s' = fs s
  ∧ emitted s s' = [EvImport "rich" None; EvImport "tomli" None]
  ∧ count is_spawn (emitted s s') = 0%nat
  ∧ count is_execv (emitted s s') = 0%nat
  ∧ count is_venv_create (emitted s s') = 0%nat.
Proof.
  rewrite initialize_cases, fast_path_cases, imports_unfold. cbv zeta.
  destruct s as [plat vars sys_argv dir files tr]. step_process.
  destruct (import_module _ _ "rich"); [discriminate|].
  destruct (import_module _ _ "tomli"); [discriminate|].
  intros _. unfold count. simpl_emitted. repeat split; reflexivity.
Qed.

(** C9: the fast path treats as a missing capability only an exception that
    is an instance of [ImportError] (subclasses included): then
    [initialize] goes on, to the repair message or to the look-up of the
    environment directory.  Any other exception raised by an import leaves
    [initialize] as it is, with nothing done but the imports. *)
Theorem initialize_import_raises s e :
  fst (imports host s) = Raised e →
  let s0 := snd (imports host s) in
  let '(r, s') := initialize host s in
  if isinstance e cImportError then
    ∃ ev rest,
      emitted s s' = emitted s s0 ++ ev :: rest
      ∧ (ev = EvPrint Stdout "[Bootstrap] In venv but dependencies missing. Repairing..."
         ∨ ∃ present, ev = EvExists (str (venv_dir s)) present)
  else
    r = Raised e ∧ s' = s0 ∧ forallb is_import (emitted s s') = true.
Proof.
  intros Hraise s0. rewrite initialize_cases, fast_path_cases.
  destruct (imports_frame s) as (k & Hk & Himp). fold s0 in Hk.
  destruct (imports host s) as [[[]|e'|] s0'] eqn:Himports; try discriminate.
  cbn in Hraise, s0. injection Hraise as ->. subst s0.
  assert (Hs0 : extends s s0') by (exists k, (fs s); rewrite Hk; by destruct s).
  destruct (isinstance e cImportError).
  - destruct (decide _) as [Hset|Hunset].
    + destruct (repair_in_place_first s0') as (ev & -> & Hnext).
      destruct (repair_in_place host s0') as [r s']. cbn in Hnext.
      destruct (emitted_step s s0' s' _ Hs0 Hnext) as [rest Hrest]. eauto.
    + destruct (needs_handoff_first s0') as (present & Hnext).
      destruct (needs_handoff host s0') as [r s']. cbn in Hnext.
      destruct (emitted_step s s0' s' _ Hs0 Hnext) as [rest Hrest].
      apply extends_venv_paths in Hs0 as (_ & <- & _). eauto 10.
  - repeat split. rewrite Hk. by rewrite (emitted_app s _ k).
Qed.

Lemma runs_head program rest e out err c result :
  runs program (EvRun (MkRun (program :: rest) e out err c) result) = true.
Proof. unfold runs. cbn. by apply bool_decide_eq_true_2. Qed.

Lemma fast_path_fails_frame s :
  fst (fast_path host s) = Normal false →
  ∃ k, fast_path host s = (Normal false, with_trace (trace s ++ k) s)
       ∧ forallb is_import k = true.
Proof.
  intros Hfail. destruct (fast_path_frame s) as (k & Hk & Himp). exists k.
  destruct (fast_path host s) as [r s0]. cbn in *. by subst.
Qed.

(** C2, amended: when the fast path fails and the marker is set,
    [initialize] calls the installer exactly once: the package manager is
    the only program started, no image is replaced, no environment is
    created, and neither the environment directory nor its interpreter is
    looked at.  It returns normally exactly when the package manager exits
    with status 0; on another status the process exits with status 1. *)
Theorem initialize_repair s :
  fst (fast_path host s) = Normal false →
  marker_set s →
  let s0 := snd (fast_path host s) in
  let '(r, s') := initialize host s in
  let req := str (script_dir s / REQUIREMENTS_FILE) in
  let manifest := bool_decide (req ∈ fs s) in
  ∃ result,
    emitted s s'
    = emitted s s0
      ++ [EvPrint Stdout "[Bootstrap] In venv but dependencies missing. Repairing...";
          EvPrint Stdout "[Bootstrap] Installing dependencies...";
          EvExists req manifest;
          EvRun (install_call (script_dir s) (venv_pip s) manifest) result]
      ++ match result with
         | Exited rc =>
             if rc =? 0 then []
             else [EvPrint Stderr "[Bootstrap] Error: Failed to install dependencies."]
         | LaunchFailed _ => []
         end
    ∧ forallb is_import (emitted s s0) = true
    ∧ count is_spawn (emitted s s') = 1%nat
    ∧ count (runs (str (venv_pip s))) (emitted s s') = 1%nat
    ∧ count is_execv (emitted s s') = 0%nat
    ∧ count is_venv_create (emitted s s') = 0%nat
    ∧ (r = Normal tt ↔ result = Exited 0)
    ∧ (∀ rc, result = Exited rc → rc ≠ 0 → r = Raised (SystemExit 1)).
Proof.
  intros Hfail Hset. rewrite initialize_cases.
  destruct (fast_path_fails_frame s Hfail) as (k & -> & Himp). cbn [snd].
  assert (Hset0 : marker_set (with_trace (trace s ++ k) s)) by by destruct s.
  destruct (decide _) as [_|[]]; [|done]. clear Hset0.
  unfold repair_in_place, mbind, M_bind, print, log.
  rewrite install_dependencies_unfold. cbv zeta.
  destruct s as [plat vars sys_argv dir files tr]. step_process.
  destruct (launch _ _ _ _) as [[err|rc] fs'];
    [|destruct (Z.eqb_spec rc 0) as [->|Hrc]];
    [exists (LaunchFailed err) | exists (Exited 0) | exists (Exited rc)];
    simpl_emitted; unfold install_call;
    rewrite ?count_app, ?(count_imports _ k Himp) by done;
    unfold count; cbn [List.filter is_spawn is_execv is_venv_create];
    rewrite ?runs_head; cbn [length runs].
  - repeat split; try done.
  - repeat split; try done. intros; congruence.
  - rewrite (proj2 (Z.eqb_neq rc 0) Hrc).
    repeat split; try done; intros; congruence.
Qed.

Lemma runs_other program other rest e out err c result :
  other ≠ program →
  runs program (EvRun (MkRun (other :: rest) e out err c) result) = false.
Proof. intros Hne. unfold runs. cbn. apply bool_decide_eq_false_2. congruence. Qed.

Lemma create_venv_if_missing_ok dir s s1 :
  create_venv_if_missing host dir s = (Normal tt, s1) →
  ∃ k files, s1 = with_fs files (with_trace (trace s ++ k) s)
             ∧ count is_launch k = 0%nat.
Proof.
  destruct s as [plat vars sys_argv root files tr].
  cbv [create_venv_if_missing mbind M_bind mret M_ret exists_ print log
       venv_create].
  step_process. case_bool_decide; cbn [negb].
  - intros [= <-]. by exists [EvExists (str dir) true], files.
  - destruct (venv_builder _ _ _ _) as [[e|] files']; intros [= <-].
    exists [EvExists (str dir) false;
            EvPrint Stdout ("[Bootstrap] Creating virtual environment at: "
                            +:+ str dir +:+ "...");
            EvVenvCreate (str dir) true None], files'.
    step_process. rewrite <- !app_assoc. cbn [app]. done.
Qed.

Lemma check_venv_integrity_true python s s2 :
  check_venv_integrity host python s = (Normal true, s2) →
  ∃ files,
    s2 = with_fs files
           (with_trace (trace s ++ [EvExists (str python) true;
                                    EvRun (integrity_call python) (Exited 0)]) s).
Proof.
  destruct s as [plat vars sys_argv root files tr].
  cbv [check_venv_integrity mbind M_bind mret M_ret try_except exists_
       subprocess_run launch args check fs].
  step_process. change check_script with "import rich; import tomli".
  case_bool_decide as Hin; cbn [negb]; [|discriminate].
  rewrite (bool_decide_eq_true_2 _ Hin).
  destruct (spawn _ _ _) as [[err|rc] files'].
  - rewrite OSError_not_CalledProcessError. discriminate.
  - destruct (Z.eqb_spec rc 0) as [->|Hrc]; cbn [andb negb]; [|discriminate].
    intros [= <-]. exists files'. step_process. by rewrite <- app_assoc.
Qed.

Lemma restart_in_venv_handoff python s :
  ∃ ev files,
    snd (restart_in_venv host python s) = with_fs files (emit ev s)
    ∧ is_handoff (str python) (argv s) ev = true
    ∧ (∀ other, str python ≠ other → runs other ev = false).
Proof.
  rewrite restart_in_venv_unfold.
  destruct (decide _) as [Hwin|Hwin]; cbv zeta.
  - destruct (launch _ _ _ _) as [result files'].
    exists (EvRun (handoff_call s python) result), files'. split; [|split].
    + destruct result as [err|rc]; [|destruct (rc =? 0)]; reflexivity.
    + by apply bool_decide_eq_true_2.
    + intros other Hne. by apply runs_other.
  - match goal with |- context [emit (EvExecv ?p ?a ?e ?x) s] =>
      exists (EvExecv p a e x), (fs s); generalize x end.
    intros failed. split; [|split].
    + destruct failed; by destruct s.
    + by apply bool_decide_eq_true_2.
    + done.
Qed.

(** C3: when the fast path fails, the marker is not set and
    [check_venv_integrity] answers [True], [initialize] goes straight from
    the check to [restart_in_venv]: the package manager is never started,
    and exactly one hand-off of [sys.argv] to the environment's interpreter
    is made. *)
Theorem initialize_intact_venv s s1 s2 :
  fst (fast_path host s) = Normal false →
  ¬ marker_set s →
  create_venv_if_missing host (venv_dir s) (snd (fast_path host s))
  = (Normal tt, s1) →
  check_venv_integrity host (venv_python s) s1 = (Normal true, s2) →
  let '(r, s') := initialize host s in
  (r, s') = restart_in_venv host (venv_python s) s2
  ∧ count (runs (str (venv_pip s))) (emitted s s') = 0%nat
  ∧ count (is_handoff (str (venv_python s)) (argv s)) (emitted s s') = 1%nat.
Proof.
  intros Hfail Hunset. rewrite initialize_cases.
  destruct (fast_path_fails_frame s Hfail) as (k0 & -> & Himp). cbn [snd].
  set (s0 := with_trace (trace s ++ k0) s).
  assert (Hs0 : extends s s0) by (exists k0, (fs s); by destruct s).
  destruct (extends_venv_paths s s0 Hs0) as (Hdir & Hvd & Hpy & Hpip & _ & Henv & _).
  assert (Hunset0 : ¬ marker_set s0) by (unfold marker_set; by rewrite Henv).
  destruct (decide _) as [|_]; [done|]. clear Hunset0.
  intros Hcreate Hcheck.
  unfold needs_handoff, mbind, M_bind. rewrite Hvd, Hpy, Hcreate, Hcheck.
  cbn [negb]. unfold mret, M_ret.
  apply create_venv_if_missing_ok in Hcreate as (kc & f1 & -> & Hkc).
  apply check_venv_integrity_true in Hcheck as (f2 & ->).
  pose proof (venv_python_not_pip s) as Hne.
  match goal with |- context [restart_in_venv host ?p ?s2] =>
    destruct (restart_in_venv_handoff p s2) as (ev & f3 & Hs' & Hh & Hr);
    destruct (restart_in_venv host p s2) as [r s'] end.
  split; [reflexivity|].
  cbn [snd] in Hs'. subst s' s0.
  specialize (Hr _ Hne).
  clear Hfail Hunset Hs0 Hdir Hvd Hpy Hpip Henv.
  pose proof (runs_other (str (venv_pip s)) _ ["-c"; "import rich; import tomli"]
                None DEVNULL DEVNULL true (Exited 0) Hne) as Hri.
  fold (integrity_call (venv_python s)) in Hri.
  assert (Hhi : is_handoff (str (venv_python s)) (argv s)
                  (EvRun (integrity_call (venv_python s)) (Exited 0)) = false).
  { apply bool_decide_eq_false_2. by intros (_ & [=] & _). }
  revert Hh Hr Hri Hhi Hne.
  generalize (integrity_call (venv_python s)).
  generalize (str (venv_python s)) (str (venv_pip s)). intros py pp call.
  destruct s as [plat vars sys_argv root files tr]. step_process.
  intros Hh Hr Hri Hhi Hne. simpl_emitted.
  pose proof (count_imports (runs pp) k0 Himp (λ _ _, eq_refl)) as Hk0r.
  pose proof (count_imports (is_handoff py sys_argv) k0 Himp (λ _ _, eq_refl)) as Hk0h.
  pose proof (count_quiet (runs pp) kc (runs_quiet pp) Hkc) as Hkcr.
  pose proof (count_quiet _ kc (is_handoff_quiet py sys_argv) Hkc) as Hkch.
  rewrite !count_app, Hk0r, Hk0h, Hkcr, Hkch.
  unfold count. cbn [List.filter]. rewrite Hh, Hr, Hri, Hhi.
  split; reflexivity.
Qed.

(** C10: when the package manager's path does not exist,
    [install_dependencies] ends with the [FileNotFoundError] of the failed
    launch, an [OSError] that [except CalledProcessError] does not catch:
    no diagnostic is written to the error stream and [sys.exit(1)] is not
    reached.  [initialize] reaches this on the repair path, where the
    environment is neither created nor checked first. *)
Theorem install_dependencies_missing_pip s :
  (∀ root pip,
     str pip ∉ fs s →
     let '(r, s') := install_dependencies host root pip s in
     r = Raised FileNotFoundError
     ∧ isinstance FileNotFoundError cOSError = true
     ∧ isinstance FileNotFoundError cCalledProcessError = false
     ∧ isinstance FileNotFoundError cSystemExit = false
     ∧ count (is_print_to Stderr) (emitted s s') = 0%nat)
  ∧ (fst (fast_path host s) = Normal false →
     marker_set s →
     str (venv_pip s) ∉ fs s →
     let '(r, s') := initialize host s in
     r = Raised FileNotFoundError
     ∧ count (is_print_to Stderr) (emitted s s') = 0%nat
     ∧ count is_venv_create (emitted s s') = 0%nat
     ∧ count is_spawn (emitted s s') = 1%nat).
Proof.
  split.
  - intros root pip Hmissing. rewrite install_dependencies_unfold.
    destruct s as [plat vars sys_argv dir files tr]. step_process.
    unfold launch. step_process. rewrite (bool_decide_eq_false_2 _ Hmissing).
    unfold count. simpl_emitted. repeat split; reflexivity.
  - intros Hfail Hset Hmissing. rewrite initialize_cases.
    destruct (fast_path_fails_frame s Hfail) as (k & -> & Himp).
    assert (Hset0 : marker_set (with_trace (trace s ++ k) s)) by by destruct s.
    destruct (decide _) as [_|[]]; [|done]. clear Hset0.
    unfold repair_in_place, mbind, M_bind, print, log.
    rewrite install_dependencies_unfold. cbv zeta. unfold launch.
    destruct s as [plat vars sys_argv dir files tr].
    unfold install_call, venv_pip in *. step_process.
    cbv [fs platform] in Hmissing.
    rewrite (bool_decide_eq_false_2 _ Hmissing).
    simpl_emitted.
    rewrite !count_app, !(count_imports _ k Himp) by done.
    repeat split; reflexivity.
Qed.

End Properties.

(** C1 as stated fails: on win32, a child that exits with status 1 leaves
    the parent with an uncaught [CalledProcessError], not with status 0. *)
Lemma restart_in_venv_win32_child_fails :
  let s := win_process fresh provisioned_win in
  let '(r, s') := restart_in_venv (plain_host 1) (venv_python s) s in
  platform s = "win32"
  ∧ emitted s s' = [EvRun (handoff_call s (venv_python s)) (Exited 1)]
  ∧ r = Raised (CalledProcessError 1)
  ∧ exit_status r ≠ Some 0.
Proof. vm_compute. repeat split; congruence. Qed.

(** C6 fails off win32: [os.execv] takes no environment, so the copy with
    the marker is dropped and the interpreter starts with [os.environ] as
    it is, marker absent; the argument vector is as stated. *)
Theorem restart_in_venv_posix_drops_marker :
  let s := posix_process fresh provisioned in
  let '(r, s') := restart_in_venv (plain_host 0) (venv_python s) s in
  r = Replaced
  ∧ emitted s s'
    = [EvExecv "/home/ta/lab/.venv/bin/python"
         ["/home/ta/lab/.venv/bin/python"; "grader.py"; "--verbose"]
         (environ s) None]
  ∧ (∀ ev, ev ∈ emitted s s' →
       launch_argv ev = Some (str (venv_python s) :: argv s)
       ∧ launch_env s ev = Some (environ s)
       ∧ (launch_env s ev ≫= (.!! "GRADER_BOOTSTRAPPED")) = None
       ∧ launch_env s ev ≠ Some (<["GRADER_BOOTSTRAPPED" := "1"]> (environ s))).
Proof.
  cbv zeta.
  destruct (restart_in_venv _ _ _) as [r s'] eqn:Hrun.
  vm_compute in Hrun. injection Hrun as <- <-.
  split; [reflexivity|]. split; [reflexivity|].
  intros ev Hev. change (emitted _ _) with
    [EvExecv "/home/ta/lab/.venv/bin/python"
         ["/home/ta/lab/.venv/bin/python"; "grader.py"; "--verbose"]
         fresh None] in Hev.
  apply list_elem_of_singleton in Hev as ->.
  repeat split; [vm_compute; discriminate].
Qed.

(** ** The script on concrete hosts *)

Lemma create_venv_if_missing_existing_witness :
  let s := posix_process fresh provisioned in
  str (venv_dir s) ∈ fs s
  ∧ create_venv_if_missing (plain_host 0) (venv_dir s) s
    = (Normal tt, emit (EvExists "/home/ta/lab/.venv" true) s).
Proof.
  intros s.
  assert (Hin : str (venv_dir s) ∈ fs s) by (vm_compute; reflexivity).
  split; [exact Hin|].
  exact (proj1 (create_venv_if_missing_existing (plain_host 0) s (venv_dir s) Hin)).
Defined.

Lemma restart_in_venv_win32_witness :
  let s := win_process fresh provisioned_win in
  platform s = "win32"
  ∧ fst (restart_in_venv (plain_host 0) (venv_python s) s) = Raised (SystemExit 0).
Proof.
  intros s. split; [reflexivity|].
  pose proof (restart_in_venv_win32 (plain_host 0) s (venv_python s) eq_refl) as H.
  destruct (restart_in_venv _ _ _) as [r s'] eqn:Hrun.
  vm_compute in Hrun. injection Hrun as <- <-.
  destruct H as ([err|rc] & Hev & Hr); vm_compute in Hev; [discriminate|].
  injection Hev as <-. apply Hr.
Defined.

Lemma initialize_repair_witness :
  let s := posix_process relaunched provisioned in
  fst (fast_path (plain_host 0) s) = Normal false
  ∧ marker_set s
  ∧ count is_spawn (emitted s (snd (initialize (plain_host 0) s))) = 1%nat
  ∧ count is_execv (emitted s (snd (initialize (plain_host 0) s))) = 0%nat.
Proof.
  intros s.
  assert (Hfail : fst (fast_path (plain_host 0) s) = Normal false)
    by (vm_compute; reflexivity).
  assert (Hset : marker_set s) by (vm_compute; reflexivity).
  split; [exact Hfail|]. split; [exact Hset|].
  pose proof (initialize_repair (plain_host 0) s Hfail Hset) as H.
  destruct (initialize _ _) as [r s'].
  destruct H as (result & _ & _ & Hspawn & _ & Hexecv & _).
  split; [exact Hspawn | exact Hexecv].
Defined.

(** C2 as stated fails: with the marker set and a package manager that
    exits with status 1, [initialize] does not return, it exits with
    status 1. *)
Lemma initialize_repair_installer_fails :
  let s := posix_process relaunched provisioned in
  let host := plain_host 1 in
  fst (fast_path host s) = Normal false
  ∧ marker_set s
  ∧ count (runs (str (venv_pip s))) (emitted s (snd (initialize host s))) = 1%nat
  ∧ fst (initialize host s) = Raised (SystemExit 1)
  ∧ fst (initialize host s) ≠ Normal tt.
Proof. vm_compute. repeat split; congruence. Qed.

Lemma initialize_intact_venv_witness :
  let host := plain_host 0 in
  let s := posix_process fresh provisioned in
  let s1 := snd (create_venv_if_missing host (venv_dir s) (snd (fast_path host s))) in
  let s2 := snd (check_venv_integrity host (venv_python s) s1) in
  fst (fast_path host s) = Normal false
  ∧ ¬ marker_set s
  ∧ create_venv_if_missing host (venv_dir s) (snd (fast_path host s)) = (Normal tt, s1)
  ∧ check_venv_integrity host (venv_python s) s1 = (Normal true, s2)
  ∧ count (runs (str (venv_pip s))) (emitted s (snd (initialize host s))) = 0%nat
  ∧ count (is_handoff (str (venv_python s)) (argv s))
          (emitted s (snd (initialize host s))) = 1%nat.
Proof.
  intros host s s1 s2.
  assert (Hfail : fst (fast_path host s) = Normal false)
    by (vm_compute; reflexivity).
  assert (Hunset : ¬ marker_set s) by (vm_compute; discriminate).
  assert (Hcreate : create_venv_if_missing host (venv_dir s) (snd (fast_path host s))
                    = (Normal tt, s1)) by (vm_compute; reflexivity).
  assert (Hcheck : check_venv_integrity host (venv_python s) s1 = (Normal true, s2))
    by (vm_compute; reflexivity).
  repeat (split; [assumption|]).
  pose proof (initialize_intact_venv host s s1 s2 Hfail Hunset Hcreate Hcheck) as H.
  destruct (initialize host s) as [r s']. exact (proj2 H).
Defined.

Lemma initialize_fast_path_witness :
  let s := posix_process fresh ∅ in
  fst (imports ready_host s) = Normal tt
  ∧ fst (initialize ready_host s) = Normal tt
  ∧ fs (snd (initialize ready_host s)) = fs s.
Proof.
  intros s.
  assert (Hok : fst (imports ready_host s) = Normal tt) by (vm_compute; reflexivity).
  split; [exact Hok|].
  pose proof (initialize_fast_path ready_host s Hok) as H.
  destruct (initialize _ _) as [r s'].
  destruct H as (Hr & Hfs & _). split; [exact Hr | exact Hfs].
Defined.

Lemma initialize_import_raises_witness :
  let s := posix_process fresh provisioned in
  let e := MkExn (UserDefined "ConfigError" (Builtin cException)) 0 in
  fst (imports broken_host s) = Raised e
  ∧ isinstance e cImportError = false
  ∧ fst (initialize broken_host s) = Raised e.
Proof.
  intros s e.
  assert (Hraise : fst (imports broken_host s) = Raised e)
    by (vm_compute; reflexivity).
  split; [exact Hraise|]. split; [reflexivity|].
  pose proof (initialize_import_raises broken_host s e Hraise) as H.
  destruct (initialize _ _) as [r s']. cbv zeta in H.
  change (isinstance e cImportError) with false in H. apply H.
Defined.

Lemma install_dependencies_missing_pip_witness :
  let s := posix_process relaunched ∅ in
  (str (venv_pip s) ∉ fs s)
  ∧ fst (fast_path (plain_host 0) s) = Normal false
  ∧ marker_set s
  ∧ fst (install_dependencies (plain_host 0) (script_dir s) (venv_pip s) s)
    = Raised FileNotFoundError
  ∧ fst (initialize (plain_host 0) s) = Raised FileNotFoundError.
Proof.
  intros s.
  assert (Hmissing : str (venv_pip s) ∉ fs s) by (vm_compute; discriminate).
  assert (Hfail : fst (fast_path (plain_host 0) s) = Normal false)
    by (vm_compute; reflexivity).
  assert (Hset : marker_set s) by (vm_compute; reflexivity).
  repeat (split; [assumption|]).
  destruct (install_dependencies_missing_pip (plain_host 0) s) as [Hinstall Hinit].
  specialize (Hinstall (script_dir s) (venv_pip s) Hmissing).
  specialize (Hinit Hfail Hset Hmissing).
  destruct (install_dependencies _ _ _ _) as [r1 s1].
  destruct (initialize _ _) as [r2 s2].
  split; [apply Hinstall | apply Hinit].
Defined.


(** ** Further properties of the script *)

Section Coverage.
Context (host : Host).

(** *** Bounding the events of a computation *)

Lemma emitted_refl s : emitted s s = [].
Proof. unfold emitted. by rewrite drop_all. Qed.

Lemma emitted_trans s s1 s2 :
  extends s s1 → extends s1 s2 → emitted s s2 = emitted s s1 ++ emitted s1 s2.
Proof.
  intros (k1 & f1 & ->) (k2 & f2 & ->). destruct s as [p e a d f t].
  unfold emitted. step_process.
  by rewrite (drop_app_length (t ++ k1)), <- app_assoc, !drop_app_length.
Qed.

Lemma emitted_emit ev s : emitted s (emit ev s) = [ev].
Proof. destruct s. solve_emitted. Qed.

Lemma emitted_with_fs files ev s : emitted s (with_fs files (emit ev s)) = [ev].
Proof. destruct s. solve_emitted. Qed.

Lemma count_one P ev : count P [ev] = if P ev then 1%nat else 0%nat.
Proof. unfold count. cbn. by destruct (P ev). Qed.

Lemma count_one_le P ev : (count P [ev] ≤ 1)%nat.
Proof. rewrite count_one. destruct (P ev); lia. Qed.

Lemma bounded_weaken {A} P n n' (m : M A) :
  bounded P n m → (n ≤ n')%nat → bounded P n' m.
Proof. intros Hm Hle s. destruct (Hm s). split; [done | lia]. Qed.

Lemma bounded_ret {A} P (a : A) : bounded P 0 (mret a).
Proof.
  intros s. split; [apply extends_refl|].
  cbn. by rewrite emitted_refl.
Qed.

Lemma bounded_get {A} P (f : Process → A) : bounded P 0 (get f).
Proof.
  intros s. split; [apply extends_refl|].
  cbn. by rewrite emitted_refl.
Qed.

Lemma bounded_raise {A} P e : bounded P 0 (raise (A:=A) e).
Proof.
  intros s. split; [apply extends_refl|].
  cbn. by rewrite emitted_refl.
Qed.

Lemma bounded_sys_exit {A} P code : bounded P 0 (sys_exit (A:=A) code).
Proof. apply bounded_raise. Qed.

Lemma bounded_bind {A B} P a b (m : M A) (k : A → M B) :
  bounded P a m → (∀ x, bounded P b (k x)) → bounded P (a + b) (m ≫= k).
Proof.
  intros Hm Hk s. destruct (Hm s) as [Hext Hcount]. unfold mbind, M_bind.
  destruct (m s) as [[x|e|] s1]; cbn [fst snd] in *; [|split; [done | lia]..].
  destruct (Hk x s1) as [Hext' Hcount'].
  split; [by eapply extends_trans|].
  rewrite (emitted_trans s s1) by done. rewrite count_app. lia.
Qed.

Lemma bounded_try_except {A} P a b (body handler : M A) cls :
  bounded P a body → bounded P b handler →
  bounded P (a + b) (try_except body cls handler).
Proof.
  intros Hb Hh s. destruct (Hb s) as [Hext Hcount]. unfold try_except.
  destruct (body s) as [[x|e|] s1]; cbn [fst snd] in *; [split; [done | lia]| |split; [done | lia]].
  destruct (isinstance e cls); cbn [snd]; [|split; [done | lia]].
  destruct (Hh s1) as [Hext' Hcount'].
  split; [by eapply extends_trans|].
  rewrite (emitted_trans s s1) by done. rewrite count_app. lia.
Qed.

Lemma bounded_if {A} P a b (c : bool) (m1 m2 : M A) :
  bounded P a m1 → bounded P b m2 →
  bounded P (Nat.max a b) (if c then m1 else m2).
Proof.
  intros H1 H2. destruct c; [apply (bounded_weaken P a) | apply (bounded_weaken P b)];
    try done; lia.
Qed.

Lemma bounded_event P ev (n : nat) :
  (count P [ev] ≤ n)%nat → bounded P n (log ev).
Proof.
  intros Hn s. split; [apply extends_emit|]. cbn. by rewrite emitted_emit.
Qed.

Lemma effectful_quiet P ev :
  effectful P → is_effect ev = false → count P [ev] = 0%nat.
Proof. intros HP Hev. rewrite count_one. by rewrite (HP ev Hev). Qed.

Lemma bounded_print P to text : effectful P → bounded P 0 (print to text).
Proof. intros HP. apply bounded_event. by rewrite effectful_quiet. Qed.

Lemma bounded_exists P p : effectful P → bounded P 0 (exists_ p).
Proof.
  intros HP s. split; [apply extends_emit|]. cbn.
  by rewrite emitted_emit, effectful_quiet.
Qed.

Lemma bounded_venv_create P dir with_pip (n : nat) :
  (∀ raised, count P [EvVenvCreate (str dir) with_pip raised] ≤ n)%nat →
  bounded P n (venv_create host dir with_pip).
Proof.
  intros Hn s. split; [apply grows_venv_create|]. unfold venv_create.
  destruct (venv_builder host s (str dir) with_pip) as [[e|] files]; cbn;
    by rewrite emitted_with_fs.
Qed.

Lemma bounded_subprocess_run P call (n : nat) :
  (∀ result, count P [EvRun call result] ≤ n)%nat →
  bounded P n (subprocess_run host call).
Proof.
  intros Hn s. split; [apply grows_subprocess_run|]. unfold subprocess_run.
  destruct (args call) as [|program rest];
    [cbn; rewrite emitted_refl; unfold count; cbn; lia|].
  destruct (launch host s program call) as [[err|rc] files];
    [|destruct (check call && negb (rc =? 0))]; cbn;
    by rewrite emitted_with_fs.
Qed.

Lemma bounded_os_execv {A} P path args (n : nat) :
  (∀ inherited failed, count P [EvExecv path args inherited failed] ≤ n)%nat →
  bounded P n (os_execv (A:=A) host path args).
Proof.
  intros Hn s. split; [apply grows_os_execv|]. unfold os_execv.
  destruct args as [|a rest];
    [cbn; rewrite emitted_refl; unfold count; cbn; lia|].
  case_match; cbn; by rewrite emitted_emit.
Qed.


Lemma count_zero P ev : P ev = false → (count P [ev] ≤ 0)%nat.
Proof. intros H. rewrite count_one, H. lia. Qed.

Lemma effectful_imports P k :
  effectful P → forallb is_import k = true → count P k = 0%nat.
Proof. intros HP Hk. apply count_imports; [done|]. intros. by apply HP. Qed.

(** *** Bounds for the functions of the script *)

Lemma bounded_create_venv_if_missing P dir (n : nat) :
  effectful P →
  (∀ raised, count P [EvVenvCreate (str dir) true raised] ≤ n)%nat →
  bounded P n (create_venv_if_missing host dir).
Proof.
  intros HP Hn. unfold create_venv_if_missing.
  apply (bounded_weaken P (0 + Nat.max (0 + n) 0)); [|lia].
  apply bounded_bind; [by apply bounded_exists|]. intros present.
  apply bounded_if; [|apply bounded_ret].
  apply bounded_bind; [by apply bounded_print|]. intros _.
  by apply bounded_venv_create.
Qed.

Lemma bounded_check_venv_integrity P python (n : nat) :
  effectful P →
  (∀ result, count P [EvRun (integrity_call python) result] ≤ n)%nat →
  bounded P n (check_venv_integrity host python).
Proof.
  intros HP Hn. unfold check_venv_integrity.
  apply (bounded_weaken P (0 + Nat.max 0 ((n + 0) + 0))); [|lia].
  apply bounded_bind; [by apply bounded_exists|]. intros present.
  apply bounded_if; [apply bounded_ret|].
  apply bounded_try_except; [|apply bounded_ret].
  apply bounded_bind; [|intros _; apply bounded_ret].
  by apply bounded_subprocess_run.
Qed.

Lemma bounded_install_dependencies P root pip (n : nat) :
  effectful P →
  (∀ manifest result,
     count P [EvRun (install_call root pip manifest) result] ≤ n)%nat →
  bounded P n (install_dependencies host root pip).
Proof.
  intros HP Hn. unfold install_dependencies.
  apply (bounded_weaken P
           (0 + ((0 + Nat.max (n + 0) (n + 0)) + (0 + 0)))); [|lia].
  apply bounded_bind; [by apply bounded_print|]. intros _.
  apply bounded_try_except.
  - apply bounded_bind; [by apply bounded_exists|]. intros present.
    apply bounded_if;
      (apply bounded_bind; [|intros _; apply bounded_ret]);
      apply bounded_subprocess_run.
    + apply (Hn true).
    + apply (Hn false).
  - apply bounded_bind; [by apply bounded_print|]. intros _.
    apply bounded_sys_exit.
Qed.

Lemma bounded_restart_in_venv P python (n : nat) :
  (∀ s result, count P [EvRun (handoff_call s python) result] ≤ n)%nat →
  (∀ sys_argv inherited failed,
     count P [EvExecv (str python) (str python :: sys_argv) inherited failed]
     ≤ n)%nat →
  bounded P n (restart_in_venv host python).
Proof.
  intros Hrun Hexec. unfold restart_in_venv.
  apply (bounded_weaken P (0 + (0 + (0 + Nat.max (n + 0) n)))); [|lia].
  apply bounded_bind; [apply bounded_get|]. intros vars.
  apply bounded_bind; [apply bounded_get|]. intros sys_argv.
  apply bounded_bind; [apply bounded_get|]. intros plat.
  apply bounded_if.
  - apply bounded_bind; [|intros _; apply bounded_sys_exit].
    apply bounded_subprocess_run. intros result.
    apply (Hrun (MkProcess plat vars sys_argv (MkPath Posix "" []) ∅ [])).
  - apply bounded_os_execv. intros. apply Hexec.
Qed.


Lemma repair_in_place_count P (i : nat) s :
  effectful P →
  (∀ manifest result,
     count P [EvRun (install_call (script_dir s) (venv_pip s) manifest) result]
     ≤ i)%nat →
  extends s (snd (repair_in_place host s))
  ∧ (count P (emitted s (snd (repair_in_place host s))) ≤ i)%nat.
Proof.
  intros HP Hi. unfold repair_in_place.
  apply (bounded_weaken P (0 + i)); [|lia].
  apply bounded_bind; [by apply bounded_print|]. intros _.
  by apply bounded_install_dependencies.
Qed.

Lemma needs_handoff_count P (c k i r : nat) s :
  effectful P →
  (∀ raised, count P [EvVenvCreate (str (venv_dir s)) true raised] ≤ c)%nat →
  (∀ result, count P [EvRun (integrity_call (venv_python s)) result] ≤ k)%nat →
  (∀ manifest result,
     count P [EvRun (install_call (script_dir s) (venv_pip s) manifest) result]
     ≤ i)%nat →
  (∀ s' result,
     count P [EvRun (handoff_call s' (venv_python s)) result] ≤ r)%nat →
  (∀ sys_argv inherited failed,
     count P [EvExecv (str (venv_python s)) (str (venv_python s) :: sys_argv)
                inherited failed] ≤ r)%nat →
  extends s (snd (needs_handoff host s))
  ∧ (count P (emitted s (snd (needs_handoff host s))) ≤ c + k + i + r)%nat.
Proof.
  intros HP Hc Hk Hi Hr1 Hr2. unfold needs_handoff.
  apply (bounded_weaken P (c + (k + (Nat.max i 0 + r)))); [|lia].
  apply bounded_bind; [by apply bounded_create_venv_if_missing|]. intros _.
  apply bounded_bind; [by apply bounded_check_venv_integrity|]. intros intact.
  apply bounded_bind; [|intros _; by apply bounded_restart_in_venv].
  apply bounded_if; [by apply bounded_install_dependencies | apply bounded_ret].
Qed.

Lemma initialize_count P (c k i r : nat) s :
  effectful P →
  (∀ raised, count P [EvVenvCreate (str (venv_dir s)) true raised] ≤ c)%nat →
  (∀ result, count P [EvRun (integrity_call (venv_python s)) result] ≤ k)%nat →
  (∀ manifest result,
     count P [EvRun (install_call (script_dir s) (venv_pip s) manifest) result]
     ≤ i)%nat →
  (∀ s' result,
     count P [EvRun (handoff_call s' (venv_python s)) result] ≤ r)%nat →
  (∀ sys_argv inherited failed,
     count P [EvExecv (str (venv_python s)) (str (venv_python s) :: sys_argv)
                inherited failed] ≤ r)%nat →
  (count P (emitted s (snd (initialize host s)))
   ≤ if decide (marker_set s) then i else c + k + i + r)%nat.
Proof.
  intros HP Hc Hk Hi Hr1 Hr2. rewrite initialize_cases.
  destruct (fast_path_frame host s) as (k0 & Hs0 & Himp).
  pose proof (effectful_imports P k0 HP Himp) as Hk0.
  assert (Hfast : count P (emitted s (snd (fast_path host s))) = 0%nat).
  { rewrite Hs0. by rewrite (emitted_app s _ k0). }
  assert (Hext : extends s (snd (fast_path host s))).
  { rewrite Hs0. exists k0, (fs s). by destruct s. }
  destruct (fast_path host s) as [[[]|e|] s0]; cbn [snd] in *;
    try (rewrite Hfast; lia).
  destruct (extends_venv_paths s s0 Hext)
    as (Hdir & Hvd & Hpy & Hpip & _ & Henv & _).
  assert (Hmark : marker_set s0 ↔ marker_set s)
    by (unfold marker_set; by rewrite Henv).
  destruct (decide (marker_set s0)) as [Hset|Hunset];
    destruct (decide (marker_set s)) as [Hset'|Hunset']; try tauto.
  - destruct (repair_in_place_count P i s0 HP) as [Hext' Hcount].
    { by rewrite Hdir, Hpip. }
    rewrite (emitted_trans s s0) by done. rewrite count_app. lia.
  - destruct (needs_handoff_count P c k i r s0 HP) as [Hext' Hcount];
      rewrite ?Hdir, ?Hvd, ?Hpy, ?Hpip; try done.
    rewrite (emitted_trans s s0) by done. rewrite count_app. lia.
Qed.


(** *** What the predicates on events say about each launch *)

Lemma effectful_runs program : effectful (runs program).
Proof. intros ev Hev. by destruct ev. Qed.

Lemma effectful_is_handoff python sys_argv :
  effectful (is_handoff python sys_argv).
Proof. intros ev Hev. by destruct ev. Qed.

Lemma effectful_is_venv_create : effectful is_venv_create.
Proof. intros ev Hev. by destruct ev. Qed.

Lemma effectful_is_execv : effectful is_execv.
Proof. intros ev Hev. by destruct ev. Qed.


Lemma effectful_is_spawn : effectful is_spawn.
Proof. intros ev Hev. by destruct ev. Qed.

Lemma is_handoff_other python other sys_argv rest e out err c result :
  other ≠ python →
  is_handoff python sys_argv (EvRun (MkRun (other :: rest) e out err c) result)
  = false.
Proof.
  intros Hne. apply bool_decide_eq_false_2. intros ([= Heq _] & _). done.
Qed.

Lemma is_handoff_integrity python other sys_argv result :
  is_handoff python sys_argv (EvRun (integrity_call other) result) = false.
Proof. apply bool_decide_eq_false_2. by intros (_ & [=] & _). Qed.

Lemma venv_pip_not_python s : str (venv_pip s) ≠ str (venv_python s).
Proof. intros Heq. by apply (venv_python_not_pip s). Qed.

(** *** At most once *)


Lemma marked_count P (i : nat) s :
  marker_set s →
  effectful P →
  (∀ manifest result,
     count P [EvRun (install_call (script_dir s) (venv_pip s) manifest) result]
     ≤ i)%nat →
  (count P (emitted s (snd (initialize host s))) ≤ i)%nat.
Proof.
  intros Hset HP Hi.
  etrans; [apply (initialize_count P 1 1 i 1); try done;
           intros; apply count_one_le|].
  by rewrite decide_True.
Qed.

(** *** The hand-off *)

Lemma never_returns_bind {A B} (m : M A) (k : A → M B) :
  (∀ x, never_returns (k x)) → never_returns (m ≫= k).
Proof.
  intros Hk s b. unfold mbind, M_bind.
  destruct (m s) as [[x|e|] s1]; [apply Hk | done..].
Qed.

Lemma restart_in_venv_never_returns_aux python :
  never_returns (restart_in_venv host python).
Proof.
  intros s a. rewrite restart_in_venv_unfold.
  destruct (decide _); cbv zeta.
  - destruct (launch _ _ _ _) as [[err|rc] files]; [done|].
    by destruct (rc =? 0).
  - by case_match.
Qed.

(** X4: on every platform [restart_in_venv] makes exactly one launch and
    nothing else, and what it launches gets the interpreter's path followed
    by [sys.argv] unchanged. *)
Theorem restart_in_venv_one_launch s python :
  ∃ ev,
    emitted s (snd (restart_in_venv host python s)) = [ev]
    ∧ is_launch ev = true
    ∧ launch_argv ev = Some (str python :: argv s)
    ∧ is_handoff (str python) (argv s) ev = true.
Proof.
  destruct (restart_in_venv_handoff host python s) as (ev & files & -> & Hh & _).
  exists ev. rewrite emitted_with_fs. split; [done|].
  destruct ev as [| | | |call result|path args inherited failed];
    try discriminate; cbn in Hh |- *.
  - pose proof (bool_decide_eq_true_1 _ Hh) as (Hargs & _).
    split; [done|]. split; [by rewrite Hargs | exact Hh].
  - pose proof (bool_decide_eq_true_1 _ Hh) as (_ & Hargs).
    split; [done|]. split; [by rewrite Hargs | exact Hh].
Qed.

(** X5: on win32 the child gets the marker set to ["1"] and every other
    variable as in [os.environ], on the inherited standard streams; the
    parent's own [os.environ] is not changed. *)
Theorem restart_in_venv_win32_env s python call result :
  platform s = "win32" →
  EvRun call result ∈ emitted s (snd (restart_in_venv host python s)) →
  ∃ vars,
    env call = Some vars
    ∧ vars !! "GRADER_BOOTSTRAPPED" = Some "1"
    ∧ (∀ key, key ≠ "GRADER_BOOTSTRAPPED" → vars !! key = environ s !! key)
    ∧ stdout call = Inherit ∧ stderr call = Inherit
    ∧ environ (snd (restart_in_venv host python s)) = environ s.
Proof.
  intros Hwin. rewrite restart_in_venv_unfold.
  destruct (decide _) as [_|[]]; [|done]. cbv zeta.
  destruct (launch _ _ _ _) as [[err|rc] files]; [|destruct (rc =? 0)];
    cbn [snd]; rewrite emitted_with_fs;
    intros [= -> ->]%list_elem_of_singleton;
    (eexists; split; [reflexivity|]; split; [apply lookup_insert_eq|];
     split; [intros key Hkey; by apply lookup_insert_ne|]; by destruct s).
Qed.

(** X6: off win32 [restart_in_venv] starts no child: its one event is the
    [execv] of the interpreter with [os.environ] as it is.  The image is
    replaced when the [execv] goes through, its [OSError] is raised
    otherwise, and an interpreter that does not exist gives
    [FileNotFoundError]; the filesystem is untouched. *)
Theorem restart_in_venv_replace s python :
  platform s ≠ "win32" →
  let '(r, s') := restart_in_venv host python s in
  ∃ failed,
    emitted s s'
    = [EvExecv (str python) (str python :: argv s) (environ s) failed]
    ∧ fs s' = fs s
    ∧ (str python ∉ fs s → failed = Some ENOENT)
    ∧ match failed with
      | None => r = Replaced
      | Some err => r = Raised (OSError_of err)
      end.
Proof.
  intros Hposix. rewrite restart_in_venv_unfold.
  destruct (decide _) as [|_]; [done|]. cbv zeta.
  match goal with |- context [emit (EvExecv _ _ _ ?x) s] =>
    assert (Hmissing : str python ∉ fs s → x = Some ENOENT)
      by (intros Hno; by rewrite (bool_decide_eq_false_2 _ Hno));
    revert Hmissing; generalize x end.
  intros failed Hmissing.
  destruct failed as [err|]; [exists (Some err) | exists None];
    rewrite emitted_emit; repeat split; try done; by destruct s.
Qed.


(** *** The paths *)

Lemma concat_snoc_nonempty (sp : string) (l : list string) (a : string) :
  l ≠ [] → String.concat sp (l ++ [a]) = String.concat sp l +:+ sp +:+ a.
Proof.
  induction l as [|x l IH]; [done|]. intros _.
  destruct l as [|y l]; [done|].
  change (String.concat sp ((x :: y :: l) ++ [a]))
    with (x +:+ sp +:+ String.concat sp ((y :: l) ++ [a])).
  change (String.concat sp (x :: y :: l))
    with (x +:+ sp +:+ String.concat sp (y :: l)).
  rewrite IH by done. by rewrite !string_app_assoc.
Qed.

Lemma str_joinpath_nonempty (p : Path) (a : string) :
  names p ≠ [] → str (p / a) = str p +:+ sep (p_flavour p) +:+ a.
Proof.
  intros Hp. unfold str, joinpath. cbn [anchor names p_flavour].
  rewrite concat_snoc_nonempty by done. by rewrite string_app_assoc.
Qed.

Lemma str_below (p : Path) (a b c : string) :
  str (p / a / b / c)
  = str (p / a) +:+ sep (p_flavour p) +:+ b +:+ sep (p_flavour p) +:+ c.
Proof.
  assert (Hnames : ∀ q x, names (q / x) ≠ [])
    by (intros q x; cbn; by destruct (names q)).
  rewrite (str_joinpath_nonempty (p / a / b) c) by apply Hnames.
  rewrite (str_joinpath_nonempty (p / a) b) by apply Hnames.
  cbn [joinpath p_flavour]. by rewrite !string_app_assoc.
Qed.

(** X7: [get_venv_paths] has no effect and always answers.  The directory
    is [root / ".venv"]; the interpreter and the package manager are two
    different files of the same directory below it, [Scripts] with the
    [.exe] suffix when [sys.platform] is exactly ["win32"] and [bin]
    without suffix for every other platform string. *)
Theorem get_venv_paths_spec root s :
  let sp := sep (p_flavour root) in
  let win := bool_decide (platform s = "win32") in
  let bin := if win then "Scripts" else "bin" in
  let exe := if win then ".exe" else "" in
  ∃ dir python pip,
    get_venv_paths root s = (Normal (dir, python, pip), s)
    ∧ dir = root / ".venv"
    ∧ str python = str dir +:+ sp +:+ bin +:+ sp +:+ "python" +:+ exe
    ∧ str pip = str dir +:+ sp +:+ bin +:+ sp +:+ "pip" +:+ exe
    ∧ str python ≠ str pip.
Proof.
  cbv zeta. unfold get_venv_paths, mbind, M_bind, get, mret, M_ret.
  case_bool_decide; eexists _, _, _; (split; [reflexivity|]);
    (split; [reflexivity|]); rewrite !str_below;
    repeat split; try reflexivity;
    intros Heq; repeat apply String.app_inj in Heq; discriminate.
Qed.

(** *** Provisioning *)

Lemma create_venv_if_missing_unfold dir s :
  create_venv_if_missing host dir s =
  if bool_decide (str dir ∈ fs s) then
    (Normal tt, emit (EvExists (str dir) true) s)
  else
    let s1 :=
      emit (EvPrint Stdout ("[Bootstrap] Creating virtual environment at: "
                            +:+ str dir +:+ "..."))
           (emit (EvExists (str dir) false) s) in
    let '(raised, files) := venv_builder host s1 (str dir) true in
    let s2 := with_fs files (emit (EvVenvCreate (str dir) true raised) s1) in
    match raised with
    | None => (Normal tt, s2)
    | Some e => (Raised e, s2)
    end.
Proof.
  cbv [create_venv_if_missing mbind M_bind mret M_ret exists_ print log
       venv_create].
  case_bool_decide; cbn [negb]; [done|].
  by destruct (venv_builder _ _ _ _) as [[e|] files].
Qed.

(** X8: on a directory that does not exist [create_venv_if_missing]
    announces the creation on standard output, then calls [venv.create]
    once with [with_pip=True]; it starts nothing itself, returns when the
    creation succeeds and lets the exception of a failed creation
    through. *)
Theorem create_venv_if_missing_absent s dir :
  str dir ∉ fs s →
  let '(r, s') := create_venv_if_missing host dir s in
  ∃ raised,
    emitted s s'
    = [EvExists (str dir) false;
       EvPrint Stdout ("[Bootstrap] Creating virtual environment at: "
                       +:+ str dir +:+ "...");
       EvVenvCreate (str dir) true raised]
    ∧ count is_launch (emitted s s') = 0%nat
    ∧ match raised with
      | None => r = Normal tt
      | Some e => r = Raised e
      end.
Proof.
  intros Hmissing. rewrite create_venv_if_missing_unfold.
  rewrite (bool_decide_eq_false_2 _ Hmissing). cbv zeta.
  destruct (venv_builder _ _ _ _) as [[e|] files];
    [exists (Some e) | exists None];
    destruct s; unfold count; simpl_emitted; repeat split; reflexivity.
Qed.

(** *** The orchestrator, path by path *)

Lemma needs_handoff_never_returns : never_returns (needs_handoff host).
Proof.
  intros s a. unfold needs_handoff.
  apply never_returns_bind. intros _.
  apply never_returns_bind. intros intact.
  apply never_returns_bind. intros _.
  apply restart_in_venv_never_returns_aux.
Qed.

Lemma fast_path_fails_extends s :
  fst (fast_path host s) = Normal false →
  extends s (snd (fast_path host s))
  ∧ (∀ P, effectful P → count P (emitted s (snd (fast_path host s))) = 0%nat).
Proof.
  intros Hfail.
  destruct (fast_path_fails_frame host s Hfail) as (k & -> & Himp). cbn [snd].
  split; [exists k, (fs s); by destruct s|].
  intros P HP. rewrite (emitted_app s _ k) by by destruct s.
  by apply effectful_imports.
Qed.

(** X9: [initialize] returns to its caller only when every required module
    imported, or when the marker is set and the package manager it ran
    exited with status 0. *)
Theorem initialize_returns s :
  fst (initialize host s) = Normal tt →
  fst (imports host s) = Normal tt
  ∨ (marker_set s
     ∧ ∃ manifest,
         EvRun (install_call (script_dir s) (venv_pip s) manifest) (Exited 0)
         ∈ emitted s (snd (initialize host s))).
Proof.
  rewrite initialize_cases, fast_path_cases.
  destruct (imports_frame host s) as (k & Hk & _).
  destruct (imports host s) as [[[]|e|] s0]; [by left| |done].
  cbn [snd] in Hk. subst s0.
  destruct (isinstance e cImportError); [|done].
  destruct (decide _) as [Hset|Hunset];
    [|intros Hret; by apply needs_handoff_never_returns in Hret].
  intros Hret. right. split; [by destruct s|]. revert Hret.
  unfold repair_in_place, mbind, M_bind, print, log.
  rewrite install_dependencies_unfold. cbv zeta.
  destruct (launch _ _ _ _) as [[err|rc] files]; [done|].
  destruct (Z.eqb_spec rc 0) as [->|]; [|done]. intros _.
  destruct s as [plat vars sys_argv dir files0 tr]. cbn [snd]. simpl_emitted.
  eexists. rewrite elem_of_app. right.
  rewrite !elem_of_cons. right. right. right. left. reflexivity.
Qed.

(** X10: the marker counts as set only when it is exactly ["1"].  With any
    other value, or none, a failed fast path goes on with the look-up of
    the environment directory, and [initialize] does not return to its
    caller. *)
Theorem initialize_unmarked s :
  fst (fast_path host s) = Normal false →
  environ s !! "GRADER_BOOTSTRAPPED" ≠ Some "1" →
  let s0 := snd (fast_path host s) in
  let '(r, s') := initialize host s in
  r ≠ Normal tt
  ∧ ∃ present rest,
      emitted s s' = emitted s s0 ++ EvExists (str (venv_dir s)) present :: rest.
Proof.
  intros Hfail Hunset. rewrite initialize_cases.
  destruct (fast_path_fails_extends s Hfail) as [Hext _].
  destruct (fast_path host s) as [r0 s0]. cbn [fst snd] in *. subst r0.
  destruct (extends_venv_paths s s0 Hext) as (_ & Hvd & _ & _ & _ & Henv & _).
  destruct (decide _) as [Hset|_];
    [unfold marker_set in Hset; by rewrite Henv in Hset|].
  pose proof (needs_handoff_never_returns s0 tt) as Hnever.
  destruct (needs_handoff_first host s0) as (present & Hnext).
  destruct (needs_handoff host s0) as [r s']. cbn [fst snd] in *.
  split; [done|].
  destruct (emitted_step s s0 s' _ Hext Hnext) as [rest Hrest].
  rewrite Hvd in Hrest. eauto.
Qed.



(** X2: with the marker set, [initialize] never creates an environment,
    never replaces the image and never starts the environment's
    interpreter, whatever the imports do; it starts at most one child. *)
Theorem initialize_marked s :
  marker_set s →
  let t := emitted s (snd (initialize host s)) in
  count is_venv_create t = 0%nat
  ∧ count is_execv t = 0%nat
  ∧ count (runs (str (venv_python s))) t = 0%nat
  ∧ (count is_spawn t ≤ 1)%nat.
Proof.
  intros Hset. pose proof (venv_pip_not_python s) as Hne.
  cbv zeta. repeat split.
  - apply Nat.le_0_r, marked_count; [done | apply effectful_is_venv_create|].
    intros. by apply count_zero.
  - apply Nat.le_0_r, marked_count; [done | apply effectful_is_execv|].
    intros. by apply count_zero.
  - apply Nat.le_0_r, marked_count; [done | apply effectful_runs|].
    intros. apply count_zero. by apply runs_other.
  - apply marked_count; [done | apply effectful_is_spawn|].
    intros. apply count_one_le.
Qed.

(** X3: [restart_in_venv] never returns to its caller.  On win32 it ends
    with [SystemExit(0)], with the [CalledProcessError] of a child that
    exited non-zero, or with the [OSError] of a failed launch; elsewhere
    the image is replaced or the [OSError] of the failed [execv] is
    raised. *)
Theorem restart_in_venv_never_returns s python :
  match fst (restart_in_venv host python s) with
  | Normal _ => False
  | Raised e =>
      (platform s = "win32" ∧ e = SystemExit 0)
      ∨ (platform s = "win32" ∧ isinstance e cCalledProcessError = true
         ∧ exn_code e ≠ 0)
      ∨ isinstance e cOSError = true
  | Replaced => platform s ≠ "win32"
  end.
Proof.
  rewrite restart_in_venv_unfold.
  destruct (decide _) as [Hwin|Hposix]; cbv zeta.
  - destruct (launch _ _ _ _) as [[err|rc] files]; cbn [fst].
    + right. right. by destruct err.
    + destruct (Z.eqb_spec rc 0); cbn [fst]; [by left|]. right. by left.
  - match goal with |- context [emit (EvExecv _ _ _ ?x) s] => generalize x end.
    intros [err|]; cbn [fst]; [|done]. right. right. by destruct err.
Qed.

Lemma install_dependencies_runs_once root pip s :
  count (runs (str pip)) (emitted s (snd (install_dependencies host root pip s)))
  = 1%nat
  ∧ fst (install_dependencies host root pip s) ≠ Replaced.
Proof.
  rewrite install_dependencies_unfold. cbv zeta.
  destruct (launch _ _ _ _) as [[err|rc] files]; [|destruct (rc =? 0)];
    cbn [fst snd]; (split; [|done]); destruct s; unfold count, install_call;
    simpl_emitted; cbn [List.filter]; rewrite runs_head; reflexivity.
Qed.

(** X12: when the fast path fails, the marker is not set and
    [check_venv_integrity] answers [False], [initialize] runs the package
    manager exactly once.  When the installer returns, the hand-off
    follows, exactly once; when it does not, [initialize] ends as the
    installer does and no hand-off is made. *)
Theorem initialize_broken_venv s s1 s2 :
  fst (fast_path host s) = Normal false →
  ¬ marker_set s →
  create_venv_if_missing host (venv_dir s) (snd (fast_path host s))
  = (Normal tt, s1) →
  check_venv_integrity host (venv_python s) s1 = (Normal false, s2) →
  let '(ri, s3) := install_dependencies host (script_dir s) (venv_pip s) s2 in
  let '(r, s') := initialize host s in
  count (runs (str (venv_pip s))) (emitted s s') = 1%nat
  ∧ match ri with
    | Normal _ =>
        (r, s') = restart_in_venv host (venv_python s) s3
        ∧ count (is_handoff (str (venv_python s)) (argv s)) (emitted s s')
          = 1%nat
    | Raised e =>
        (r, s') = (Raised e, s3)
        ∧ count (is_handoff (str (venv_python s)) (argv s)) (emitted s s')
          = 0%nat
    | Replaced => False
    end.
Proof.
  intros Hfail Hunset Hcreate Hcheck. rewrite initialize_cases.
  destruct (fast_path_fails_extends s Hfail) as [Hext0 Hquiet].
  destruct (fast_path host s) as [r0 s0]. cbn [fst snd] in *. subst r0.
  destruct (extends_venv_paths s s0 Hext0)
    as (Hdir & Hvd & Hpy & Hpip & _ & Henv & _).
  destruct (decide _) as [Hset|_];
    [unfold marker_set in *; by rewrite Henv in Hset|].
  unfold needs_handoff, mbind, M_bind.
  rewrite Hdir, Hvd, Hpy, Hpip, Hcreate, Hcheck. cbn [negb].
  pose proof (venv_python_not_pip s) as Hne.
  pose proof (venv_pip_not_python s) as Hne'.
  set (P1 := runs (str (venv_pip s))).
  set (P2 := is_handoff (str (venv_python s)) (argv s)).
  (* provisioning and verification add nothing that counts *)
  assert (Hc : ∀ P, effectful P →
            (∀ raised, P (EvVenvCreate (str (venv_dir s)) true raised) = false) →
            extends s0 s1 ∧ count P (emitted s0 s1) = 0%nat).
  { intros P HP HPc.
    destruct (bounded_create_venv_if_missing P (venv_dir s) 0 HP) with s0
      as [He Hn]; [intros; by apply count_zero|].
    rewrite Hcreate in He, Hn. cbn [snd] in *. split; [done | lia]. }
  assert (Hk : ∀ P, effectful P →
            (∀ result, P (EvRun (integrity_call (venv_python s)) result) = false) →
            extends s1 s2 ∧ count P (emitted s1 s2) = 0%nat).
  { intros P HP HPk.
    destruct (bounded_check_venv_integrity P (venv_python s) 0 HP) with s1
      as [He Hn]; [intros; by apply count_zero|].
    rewrite Hcheck in He, Hn. cbn [snd] in *. split; [done | lia]. }
  destruct (Hc P1 (effectful_runs _) (λ _, eq_refl)) as [Hext1 Hc1].
  destruct (Hc P2 (effectful_is_handoff _ _) (λ _, eq_refl)) as [_ Hc2].
  destruct (Hk P1 (effectful_runs _)) as [Hext2 Hk1];
    [intros; by apply runs_other|].
  destruct (Hk P2 (effectful_is_handoff _ _)) as [_ Hk2];
    [intros; apply is_handoff_integrity|].
  clear Hc Hk.
  (* the installer *)
  destruct (install_dependencies_runs_once (script_dir s) (venv_pip s) s2)
    as [Hi1 Hnr].
  destruct (bounded_install_dependencies P2 (script_dir s) (venv_pip s) 0
              (effectful_is_handoff _ _)) with s2 as [Hext3 Hi2];
    [intros; apply count_zero; by apply is_handoff_other|].
  fold P1 in Hi1.
  destruct (install_dependencies host (script_dir s) (venv_pip s) s2)
    as [[[]|e|] s3]; cbn [fst snd] in *; [| |done].
  all: assert (Hs1 : extends s s1) by (eapply extends_trans; done).
  all: assert (Hs2 : extends s s2) by (eapply extends_trans; done).
  all: assert (Hs3 : extends s s3) by (eapply extends_trans; done).
  - (* installed: the hand-off follows *)
    destruct (restart_in_venv_handoff host (venv_python s) s3)
      as (ev & files & Hs' & Hh & Hr).
    destruct (restart_in_venv host (venv_python s) s3) as [r s'].
    cbn [snd] in Hs'. subst s'.
    assert (Hargv : argv s3 = argv s).
    { by destruct (extends_venv_paths s s3 Hs3) as (_ & _ & _ & _ & -> & _). }
    rewrite Hargv in Hh. fold P2 in Hh.
    specialize (Hr _ Hne). fold P1 in Hr.
    assert (Hext4 : extends s3 (with_fs files (emit ev s3))).
    { eapply extends_trans; [apply extends_emit | apply extends_with_fs]. }
    assert (Hall : ∀ P, count P (emitted s (with_fs files (emit ev s3)))
              = (count P (emitted s s0) + count P (emitted s0 s1)
                 + count P (emitted s1 s2) + count P (emitted s2 s3)
                 + count P [ev])%nat).
    { intros P.
      rewrite (emitted_trans s s3) by done.
      rewrite (emitted_trans s s2 s3) by done.
      rewrite (emitted_trans s s1 s2) by done.
      rewrite (emitted_trans s s0 s1) by done.
      rewrite emitted_with_fs, !count_app. lia. }
    rewrite !Hall, !count_one, Hh, Hr, Hc1, Hc2, Hk1, Hk2, Hi1.
    rewrite !Hquiet by (apply effectful_runs || apply effectful_is_handoff).
    split; [lia|]. split; [done | lia].
  - (* the installer failed: no hand-off *)
    assert (Hall : ∀ P, count P (emitted s s3)
              = (count P (emitted s s0) + count P (emitted s0 s1)
                 + count P (emitted s1 s2) + count P (emitted s2 s3))%nat).
    { intros P.
      rewrite (emitted_trans s s2 s3) by done.
      rewrite (emitted_trans s s1 s2) by done.
      rewrite (emitted_trans s s0 s1) by done.
      rewrite !count_app. lia. }
    rewrite !Hall, Hc1, Hc2, Hk1, Hk2, Hi1.
    rewrite !Hquiet by (apply effectful_runs || apply effectful_is_handoff).
    split; [lia|]. split; [done | lia].
Qed.

(** X13: the marker breaks the loop on win32.  A process whose environment
    is the one [restart_in_venv] gave its child has the marker set, so
    [initialize] in it never creates an environment, never replaces the
    image and never starts the environment's interpreter again. *)
Theorem handoff_child_stays s python call result child :
  platform s = "win32" →
  EvRun call result ∈ emitted s (snd (restart_in_venv host python s)) →
  env call = Some (environ child) →
  marker_set child
  ∧ let t := emitted child (snd (initialize host child)) in
    count is_venv_create t = 0%nat
    ∧ count is_execv t = 0%nat
    ∧ count (runs (str (venv_python child))) t = 0%nat.
Proof.
  intros Hwin Hev Henv.
  assert (Hset : marker_set child).
  { revert Hev. rewrite restart_in_venv_unfold.
    destruct (decide _) as [_|[]]; [|done]. cbv zeta.
    destruct (launch _ _ _ _) as [[err|rc] files]; [|destruct (rc =? 0)];
      cbn [snd]; rewrite emitted_with_fs;
      intros [= -> ->]%list_elem_of_singleton;
      injection Henv as Henv; unfold marker_set; rewrite <- Henv;
      apply lookup_insert_eq. }
  split; [done|]. pose proof (venv_pip_not_python child) as Hne.
  cbv zeta. repeat split.
  - apply Nat.le_0_r, marked_count; [done | apply effectful_is_venv_create|].
    intros. by apply count_zero.
  - apply Nat.le_0_r, marked_count; [done | apply effectful_is_execv|].
    intros. by apply count_zero.
  - apply Nat.le_0_r, marked_count; [done | apply effectful_runs|].
    intros. apply count_zero. by apply runs_other.
Qed.

End Coverage.

(** ** The further properties on concrete hosts *)

Lemma initialize_marked_witness :
  let s := posix_process relaunched provisioned in
  marker_set s
  ∧ count is_venv_create (emitted s (snd (initialize (plain_host 0) s))) = 0%nat
  ∧ count is_execv (emitted s (snd (initialize (plain_host 0) s))) = 0%nat.
Proof.
  intros s.
  assert (Hset : marker_set s) by (vm_compute; reflexivity).
  split; [exact Hset|].
  destruct (initialize_marked (plain_host 0) s Hset) as (Hv & Hx & _).
  split; [exact Hv | exact Hx].
Defined.

Lemma restart_in_venv_win32_env_witness :
  let s := win_process fresh provisioned_win in
  let call := handoff_call s (venv_python s) in
  platform s = "win32"
  ∧ EvRun call (Exited 0)
    ∈ emitted s (snd (restart_in_venv (plain_host 0) (venv_python s) s))
  ∧ ∃ vars, env call = Some vars
            ∧ vars !! "GRADER_BOOTSTRAPPED" = Some "1"
            ∧ vars !! "HOME" = Some "/home/ta".
Proof.
  intros s call.
  assert (Hin : EvRun call (Exited 0)
            ∈ emitted s (snd (restart_in_venv (plain_host 0) (venv_python s) s))).
  { replace (emitted s _) with [EvRun call (Exited 0)]
      by (vm_compute; reflexivity).
    by apply list_elem_of_singleton. }
  split; [reflexivity|]. split; [exact Hin|].
  destruct (restart_in_venv_win32_env (plain_host 0) s (venv_python s) call
              (Exited 0) eq_refl Hin) as (vars & Henv & Hmark & Hother & _).
  exists vars. split; [exact Henv|]. split; [exact Hmark|].
  rewrite Hother by discriminate. vm_compute. reflexivity.
Defined.

Lemma restart_in_venv_replace_witness :
  let s := posix_process fresh provisioned in
  platform s ≠ "win32"
  ∧ fst (restart_in_venv (plain_host 0) (venv_python s) s) = Replaced.
Proof.
  intros s.
  assert (Hposix : platform s ≠ "win32") by (vm_compute; discriminate).
  split; [exact Hposix|].
  pose proof (restart_in_venv_replace (plain_host 0) s (venv_python s) Hposix)
    as H.
  destruct (restart_in_venv _ _ _) as [r s'] eqn:Hrun.
  vm_compute in Hrun. injection Hrun as <- <-.
  destruct H as ([err|] & _ & _ & _ & Hr); [discriminate Hr | exact Hr].
Defined.

Lemma create_venv_if_missing_absent_witness :
  let s := posix_process fresh ∅ in
  (str (venv_dir s) ∉ fs s)
  ∧ fst (create_venv_if_missing (plain_host 0) (venv_dir s) s) = Normal tt.
Proof.
  intros s.
  assert (Hmissing : str (venv_dir s) ∉ fs s) by (vm_compute; discriminate).
  split; [exact Hmissing|].
  pose proof (create_venv_if_missing_absent (plain_host 0) s (venv_dir s)
                Hmissing) as H.
  destruct (create_venv_if_missing _ _ _) as [r s'] eqn:Hrun.
  destruct H as ([e|] & Hev & _ & Hr); [|exact Hr].
  vm_compute in Hrun. injection Hrun as <- <-.
  vm_compute in Hev. discriminate.
Defined.

Lemma initialize_returns_witness :
  let s := posix_process fresh ∅ in
  fst (initialize ready_host s) = Normal tt
  ∧ (fst (imports ready_host s) = Normal tt ∨ marker_set s).
Proof.
  intros s.
  assert (Hret : fst (initialize ready_host s) = Normal tt)
    by (vm_compute; reflexivity).
  split; [exact Hret|].
  destruct (initialize_returns ready_host s Hret) as [Himp|[Hset _]];
    [left; exact Himp | right; exact Hset].
Defined.

Lemma initialize_unmarked_witness :
  let s := posix_process half_marked provisioned in
  fst (fast_path (plain_host 0) s) = Normal false
  ∧ environ s !! "GRADER_BOOTSTRAPPED" = Some "true"
  ∧ fst (initialize (plain_host 0) s) ≠ Normal tt.
Proof.
  intros s.
  assert (Hfail : fst (fast_path (plain_host 0) s) = Normal false)
    by (vm_compute; reflexivity).
  assert (Hval : environ s !! "GRADER_BOOTSTRAPPED" = Some "true")
    by (vm_compute; reflexivity).
  assert (Hunset : environ s !! "GRADER_BOOTSTRAPPED" ≠ Some "1")
    by (rewrite Hval; discriminate).
  split; [exact Hfail|]. split; [exact Hval|].
  pose proof (initialize_unmarked (plain_host 0) s Hfail Hunset) as H.
  destruct (initialize _ _) as [r s']. exact (proj1 H).
Defined.


Lemma initialize_broken_venv_witness :
  let host := stale_host in
  let s := posix_process fresh provisioned in
  let s1 := snd (create_venv_if_missing host (venv_dir s)
                   (snd (fast_path host s))) in
  let s2 := snd (check_venv_integrity host (venv_python s) s1) in
  fst (fast_path host s) = Normal false
  ∧ ¬ marker_set s
  ∧ create_venv_if_missing host (venv_dir s) (snd (fast_path host s))
    = (Normal tt, s1)
  ∧ check_venv_integrity host (venv_python s) s1 = (Normal false, s2)
  ∧ count (runs (str (venv_pip s))) (emitted s (snd (initialize host s)))
    = 1%nat.
Proof.
  intros host s s1 s2.
  assert (Hfail : fst (fast_path host s) = Normal false)
    by (vm_compute; reflexivity).
  assert (Hunset : ¬ marker_set s) by (vm_compute; discriminate).
  assert (Hcreate : create_venv_if_missing host (venv_dir s)
                      (snd (fast_path host s)) = (Normal tt, s1))
    by (vm_compute; reflexivity).
  assert (Hcheck : check_venv_integrity host (venv_python s) s1
                   = (Normal false, s2)) by (vm_compute; reflexivity).
  repeat (split; [assumption|]).
  pose proof (initialize_broken_venv host s s1 s2 Hfail Hunset Hcreate Hcheck)
    as H.
  destruct (install_dependencies _ _ _ _) as [ri s3].
  destruct (initialize host s) as [r s']. exact (proj1 H).
Defined.

Lemma handoff_child_stays_witness :
  let s := win_process fresh provisioned_win in
  let call := handoff_call s (venv_python s) in
  let child := win_process (<["GRADER_BOOTSTRAPPED" := "1"]> fresh)
                 provisioned_win in
  platform s = "win32"
  ∧ EvRun call (Exited 0)
    ∈ emitted s (snd (restart_in_venv (plain_host 0) (venv_python s) s))
  ∧ env call = Some (environ child)
  ∧ marker_set child
  ∧ count is_execv (emitted child (snd (initialize (plain_host 0) child)))
    = 0%nat.
Proof.
  intros s call child.
  assert (Hin : EvRun call (Exited 0)
            ∈ emitted s (snd (restart_in_venv (plain_host 0) (venv_python s) s))).
  { replace (emitted s _) with [EvRun call (Exited 0)]
      by (vm_compute; reflexivity).
    by apply list_elem_of_singleton. }
  assert (Henv : env call = Some (environ child)) by reflexivity.
  split; [reflexivity|]. split; [exact Hin|]. split; [exact Henv|].
  destruct (handoff_child_stays (plain_host 0) s (venv_python s) call
              (Exited 0) child eq_refl Hin Henv) as (Hset & _ & Hx & _).
  split; [exact Hset | exact Hx].
Defined.
